(** * MentorHub dashboard: session lifecycle, feedback and cache refresh

    A shallow embedding of the dashboard components
    - the session card (ownership, privacy of the participant name, the
      cancel action, feedback submission),
    - the skills-progress card (its two mutations),
    - the stats overview (loading gate and aggregate numbers),
    - the recommended-mentors card,
    together with the part of the query client they drive: cached queries,
    [invalidateQueries], [useMutation] with its [onSuccess]/[onError]
    callbacks and toasts.

    JavaScript numbers that hold ids, ratings and counts are integers here
    ([Z], [nat]); the only fractional number, the average rating, is an exact
    rational. *)

From Stdlib Require Import Ascii QArith Qround Lqa.
From stdpp Require Import gmap strings list fin_maps pretty.

Local Open Scope Z_scope.
Local Open Scope string_scope.
Local Open Scope list_scope.

(** ** Entity model *)

(** Modelled from the spec: the shared schema module ([@shared/schema]) is
    not among the sources; section 3 of the specification gives the five
    session statuses. *)
Inductive Status := pending | approved | completed | canceled | rejected.

(** Modelled from the spec: the shared schema module is not among the
    sources; section 3 of the specification gives the two user roles. *)
Inductive Role := mentor | mentee.

Global Instance Status_eq_dec : EqDecision Status.
Proof. solve_decision. Defined.

Global Instance Role_eq_dec : EqDecision Role.
Proof. solve_decision. Defined.

(** The text a status has in the source, where it is a string literal. *)
Definition Status_to_string (s : Status) : string :=
  match s with
  | pending => "pending"
  | approved => "approved"
  | completed => "completed"
  | canceled => "canceled"
  | rejected => "rejected"
  end.

Definition Role_to_string (r : Role) : string :=
  match r with
  | mentor => "mentor"
  | mentee => "mentee"
  end.

Module Session.
(** Modelled from the spec: the [Session] type of the shared schema, with
    the fields section 3 lists and the card reads. *)
Record t := mk {
  id : Z;
  mentorId : Z;
  menteeId : Z;
  topic : string;
  date : string;
  time : string;
  status : Status;
  meetingLink : option string;
  notes : option string
}.
End Session.

Module User.
(** Modelled from the spec: the [User] type of the shared schema. *)
Record t := mk {
  id : Z;
  role : Role;
  firstName : string;
  lastName : string;
  title : option string;
  organization : option string;
  profileImage : option string
}.
End User.

Module Feedback.
(** Modelled from the spec: the [Feedback] type of the shared schema; it is
    also the payload of [POST /api/feedback]. *)
Record t := mk {
  sessionId : Z;
  fromId : Z;
  toId : Z;
  rating : Z;
  comment : string
}.
End Feedback.

Module Skill.
(** Modelled from the spec: the [Skill] type of the shared schema. *)
Record t := mk {
  id : Z;
  name : string;
  progress : Z
}.
End Skill.

Global Instance Session_eq_dec : EqDecision Session.t.
Proof. solve_decision. Defined.

Global Instance User_eq_dec : EqDecision User.t.
Proof. solve_decision. Defined.

Global Instance Feedback_eq_dec : EqDecision Feedback.t.
Proof. solve_decision. Defined.

(** Optional chaining on the authenticated user: [user?.id], [user?.role]. *)
Definition user_id (user : option User.t) : option Z := User.id <$> user.
Definition user_role (user : option User.t) : option Role := User.role <$> user.

(** ** Query client: cache, requests, toasts *)

(** A query key is an array of strings, as in [queryKey: ["/api/sessions"]]. *)
Abbreviation QueryKey := (list string) (only parsing).

Inductive Data :=
  | SessionsData (l : list Session.t)
  | FeedbackData (l : list Feedback.t)
  | UsersData (l : list User.t)
  | ProfileData (u : User.t)
  | SkillsData (l : list Skill.t).

(** What the cache holds for one key: the last snapshot and the flag that
    [invalidateQueries] sets. *)
Record QueryState := mkQueryState {
  snapshot : option Data;
  isInvalidated : bool
}.

Definition markInvalidated (q : QueryState) : QueryState :=
  {| snapshot := snapshot q; isInvalidated := true |}.

Record SkillFormValues := mkSkillFormValues {
  form_name : string;
  form_progress : Z
}.

Inductive Body :=
  | StatusBody (status : Status)
  | FeedbackBody (feedbackData : Feedback.t)
  | SkillBody (values : SkillFormValues)
  | ProgressBody (progress : option Z).

Record Request := mkRequest {
  method : string;
  url : string;
  body : Body
}.

Record Toast := mkToast {
  toast_title : string;
  toast_description : string;
  toast_variant : option string
}.

(** The effects a handler has on the outside, in the order it issues them. *)
Inductive Event :=
  | ApiRequest (r : Request)
  | InvalidateQueries (queryKey : QueryKey)
  | ShowToast (t : Toast).

(** The component's own state [S], the shared query cache and the trace of
    effects issued so far. *)
Record World (S : Type) := mkWorld {
  ui : S;
  cache : gmap QueryKey QueryState;
  trace : list Event
}.
Arguments mkWorld {S}.
Arguments ui {S}.
Arguments cache {S}.
Arguments trace {S}.

Definition Act (S : Type) := World S → World S.

Definition andThen {S} (a b : Act S) : Act S := λ w, b (a w).
Infix ">>" := andThen (at level 61, left associativity).

Definition emit {S} (e : Event) : Act S :=
  λ w, mkWorld (ui w) (cache w) (trace w ++ [e]).

Definition setState {S} (f : S → S) : Act S :=
  λ w, mkWorld (f (ui w)) (cache w) (trace w).

Definition toast {S} (t : Toast) : Act S := emit (ShowToast t).

Definition apiRequest {S} (r : Request) : Act S := emit (ApiRequest r).

(** [queryClient.invalidateQueries({ queryKey })]: every cached query whose
    key starts with [queryKey] is marked invalidated; its snapshot stays. *)
Definition invalidateIn (queryKey : QueryKey) (c : gmap QueryKey QueryState)
  : gmap QueryKey QueryState :=
  map_imap (λ k q, Some (if bool_decide (queryKey `prefix_of` k)
                         then markInvalidated q else q)) c.

Definition invalidateQueries {S} (queryKey : QueryKey) : Act S :=
  λ w, mkWorld (ui w) (invalidateIn queryKey (cache w))
               (trace w ++ [InvalidateQueries queryKey]).

(** How the server answers a mutation's request: the promise of
    [mutationFn] resolves, or rejects with an error message. *)
Inductive Response :=
  | Resolved
  | Rejected (message : string).

(** [useMutation({ mutationFn, onSuccess, onError })]. *)
Record Mutation (S V : Type) := mkMutation {
  mutationFn : V → Request;
  onSuccess : V → Act S;
  onError : string → Act S
}.
Arguments mkMutation {S V}.
Arguments mutationFn {S V}.
Arguments onSuccess {S V}.
Arguments onError {S V}.

(** [mutation.mutate(variables)]: the request is dispatched, then exactly
    one of the two callbacks runs, chosen by the server's answer. *)
Definition mutate {S V} (m : Mutation S V) (variables : V) (resp : Response)
  : Act S :=
  apiRequest (mutationFn m variables) >>
  match resp with
  | Resolved => onSuccess m variables
  | Rejected message => onError m message
  end.

(** Projections of a trace. *)
Definition requests (tr : list Event) : list Request :=
  omap (λ e, match e with ApiRequest r => Some r | _ => None end) tr.

Definition invalidations (tr : list Event) : list QueryKey :=
  omap (λ e, match e with InvalidateQueries k => Some k | _ => None end) tr.

Definition toasts (tr : list Event) : list Toast :=
  omap (λ e, match e with ShowToast t => Some t | _ => None end) tr.

(** ** JavaScript string operations the session card uses

    A string is a sequence of code units below 256. *)

Module JsString.

(** The white space of [trim] and of the [\s] class among these code units:
    tab, line feed, vertical tab, form feed, carriage return, space and
    no-break space. *)
Definition isWhiteSpace (c : ascii) : bool :=
  let n := nat_of_ascii c in
  ((9 <=? n)%nat && (n <=? 13)%nat) || (n =? 32)%nat || (n =? 160)%nat.

Fixpoint trimStart (s : string) : string :=
  match s with
  | EmptyString => EmptyString
  | String c t => if isWhiteSpace c then trimStart t else s
  end.

Fixpoint trimEnd (s : string) : string :=
  match s with
  | EmptyString => EmptyString
  | String c t =>
      match trimEnd t with
      | EmptyString => if isWhiteSpace c then EmptyString else String c EmptyString
      | t' => String c t'
      end
  end.

(** [s.trim()]. *)
Definition trim (s : string) : string := trimEnd (trimStart s).

(** [s.startsWith(searchString)]. *)
Definition startsWith (s searchString : string) : bool :=
  String.prefix searchString s.

(** [s.includes(searchString)]. *)
Fixpoint includes (s searchString : string) : bool :=
  String.prefix searchString s
  || match s with
     | EmptyString => false
     | String _ t => includes t searchString
     end.

(** [s.replace(/\s+/g, '')]. *)
Fixpoint removeWhiteSpace (s : string) : string :=
  match s with
  | EmptyString => EmptyString
  | String c t =>
      if isWhiteSpace c then removeWhiteSpace t
      else String c (removeWhiteSpace t)
  end.

Fixpoint noWhiteSpace (s : string) : bool :=
  match s with
  | EmptyString => true
  | String c t => negb (isWhiteSpace c) && noWhiteSpace t
  end.

End JsString.

(** ** The session card *)

Module SessionCard.

(** [useState] cells of the card. *)
Record State := mkState {
  showFeedbackModal : bool;
  rating : Z;
  comment : string
}.

Definition initialState : State :=
  {| showFeedbackModal := false; rating := 5; comment := "" |}.

Definition setShowFeedbackModal (b : bool) : Act State :=
  setState (λ s, {| showFeedbackModal := b;
                    rating := rating s;
                    comment := comment s |}).

(** Strictly verify session ownership based on the user's role. *)
Definition isOwnSession (user : option User.t) (session : Session.t) : bool :=
  if bool_decide (user_role user = Some mentor)
  then bool_decide (Some (Session.mentorId session) = user_id user)
  else bool_decide (Some (Session.menteeId session) = user_id user).

Definition isMentor (user : option User.t) : bool :=
  bool_decide (user_role user = Some mentor).

Definition participantId (user : option User.t) (session : Session.t) : Z :=
  if isMentor user then Session.menteeId session else Session.mentorId session.

(** [enabled] of the profile query of the other participant:
    [!!participantId && isOwnSession]. *)
Definition participantQueryEnabled (user : option User.t) (session : Session.t)
  : bool :=
  bool_decide (participantId user session ≠ 0) && isOwnSession user session.

Definition participantQueryKey (user : option User.t) (session : Session.t)
  : QueryKey :=
  ["/api/profile/" +:+ pretty (participantId user session)].

(** [enabled] of the feedback-given query:
    [session.status === "completed" && isOwnSession]. *)
Definition feedbackGivenEnabled (user : option User.t) (session : Session.t)
  : bool :=
  bool_decide (Session.status session = completed) && isOwnSession user session.

(** [userFeedback?.some(...) || false]. *)
Definition hasLeftFeedback (user : option User.t) (session : Session.t)
    (userFeedback : option (list Feedback.t)) : bool :=
  match userFeedback with
  | Some l =>
      existsb (λ feedback,
                 bool_decide (Feedback.sessionId feedback = Session.id session)
                 && bool_decide (Some (Feedback.fromId feedback) = user_id user))
              l
  | None => false
  end.

Record UpdateSessionVars := mkUpdateSessionVars {
  vars_id : Z;
  vars_status : Status
}.

Definition updateSessionMutation (user : option User.t)
  : Mutation State UpdateSessionVars :=
  {| mutationFn := λ v,
       {| method := "PUT";
          url := "/api/sessions/" +:+ pretty (vars_id v);
          body := StatusBody (vars_status v) |};
     onSuccess := λ variables,
       invalidateQueries ["/api/sessions"] >>
       invalidateQueries ["/api/sessions/upcoming"] >>
       invalidateQueries ["/api/activities"] >>
       (if bool_decide (vars_status variables = completed) then
          toast {| toast_title := "Session marked as completed";
                   toast_description :=
                     if isMentor user
                     then "Mentee will now be able to leave feedback."
                     else "The mentor has ended this session. Please leave your feedback.";
                   toast_variant := None |}
        else if bool_decide (vars_status variables = canceled) then
          toast {| toast_title := "Session canceled";
                   toast_description := "The session has been canceled successfully.";
                   toast_variant := None |}
        else
          toast {| toast_title :=
                     "Session " +:+ Status_to_string (vars_status variables);
                   toast_description :=
                     "The session has been "
                     +:+ Status_to_string (vars_status variables)
                     +:+ " successfully.";
                   toast_variant := None |});
     onError := λ message,
       toast {| toast_title := "Failed to update session";
                toast_description := message;
                toast_variant := Some "destructive" |} |}.

Definition submitFeedbackMutation : Mutation State Feedback.t :=
  {| mutationFn := λ feedbackData,
       {| method := "POST";
          url := "/api/feedback";
          body := FeedbackBody feedbackData |};
     onSuccess := λ _,
       setShowFeedbackModal false >>
       toast {| toast_title := "Feedback submitted";
                toast_description := "Thank you for your feedback!";
                toast_variant := None |} >>
       invalidateQueries ["/api/feedback"] >>
       invalidateQueries ["/api/feedback/given"] >>
       invalidateQueries ["/api/activities"];
     onError := λ message,
       toast {| toast_title := "Failed to submit feedback";
                toast_description := message;
                toast_variant := Some "destructive" |} |}.

Definition permissionDenied : Toast :=
  {| toast_title := "Permission Denied";
     toast_description := "You can only cancel sessions that you are a part of.";
     toast_variant := Some "destructive" |}.

(** Ensure the user is part of this session, then ask for the transition
    into [canceled]. *)
Definition handleCancel (user : option User.t) (session : Session.t)
    (resp : Response) : Act State :=
  if bool_decide (Some (Session.mentorId session) ≠ user_id user)
     && bool_decide (Some (Session.menteeId session) ≠ user_id user)
  then toast permissionDenied
  else mutate (updateSessionMutation user)
              {| vars_id := Session.id session; vars_status := canceled |}
              resp.

Definition handleLeaveFeedback : Act State := setShowFeedbackModal true.

(** The payload is built from the session, the user and the card's state;
    [user!.id] throws when there is no user, which is [None] here. *)
Definition feedbackData (u : User.t) (session : Session.t) (s : State)
  : Feedback.t :=
  {| Feedback.sessionId := Session.id session;
     Feedback.fromId := User.id u;
     Feedback.toId := if isMentor (Some u)
                      then Session.menteeId session
                      else Session.mentorId session;
     Feedback.rating := rating s;
     Feedback.comment := comment s |}.

Definition submitFeedback (user : option User.t) (session : Session.t)
    (resp : Response) (w : World State) : option (World State) :=
  match user with
  | Some u =>
      Some (mutate submitFeedbackMutation (feedbackData u session (ui w)) resp w)
  | None => None
  end.

(** For privacy reasons the full name of the other participant is shown only
    after the session is completed and to the owner of the session. *)
Definition shouldShowFullName (user : option User.t) (session : Session.t)
  : bool :=
  isOwnSession user session && bool_decide (Session.status session = completed).

Definition fullName (participant : User.t) : string :=
  User.firstName participant +:+ " " +:+ User.lastName participant.

Definition roleLabel (user : option User.t) : string :=
  if isMentor user then "Mentee" else "Mentor".

Definition participantName (user : option User.t) (session : Session.t)
    (participant : option User.t) : string :=
  match (if shouldShowFullName user session then participant else None) with
  | Some p => fullName p
  | None => roleLabel user
  end.

(** The buttons of the card's action column, in the order of the markup:
    the block shown for an approved session, then the cancel button shown to
    a participant of a session that is not completed, canceled or rejected. *)
Inductive Button := JoinSession | Cancel.

Global Instance Button_eq_dec : EqDecision Button.
Proof. solve_decision. Defined.

Definition actionButtons (user : option User.t) (session : Session.t)
  : list Button :=
  (if bool_decide (Session.status session = approved)
   then [JoinSession; Cancel] else [])
  ++
  (if (bool_decide (Some (Session.mentorId session) = user_id user)
       || bool_decide (Some (Session.menteeId session) = user_id user))
      && bool_decide (Session.status session ≠ completed)
      && bool_decide (Session.status session ≠ canceled)
      && bool_decide (Session.status session ≠ rejected)
   then [Cancel] else []).

(** Clicking a cancel button runs [handleCancel]; there is nothing to click
    when no cancel button is rendered. *)
Definition clickCancel (user : option User.t) (session : Session.t)
    (resp : Response) (w : World State) : option (World State) :=
  if bool_decide (Cancel ∈ actionButtons user session)
  then Some (handleCancel user session resp w)
  else None.


(** What [handleJoinSession] does to the outside, in order. *)
Inductive JoinEffect :=
  | ConsoleLog (label link : string)
  | WindowOpen (url target : string)
  | JoinToast (t : Toast).

(** Format the Google Meet URL correctly if needed. *)
Definition meetingUrl (meetingLink : string) : string :=
  let meetingUrl := JsString.trim meetingLink in
  let meetingUrl :=
    if negb (JsString.startsWith meetingUrl "http") then
      if JsString.includes meetingUrl "meet.google.com"
      then "https://" +:+ meetingUrl
      else "https://meet.google.com/" +:+ meetingUrl
    else meetingUrl in
  JsString.removeWhiteSpace meetingUrl.

Definition noMeetingLink : Toast :=
  {| toast_title := "No meeting link available";
     toast_description := "This session doesn't have a Google Meet link yet.";
     toast_variant := Some "destructive" |}.

Definition joiningMeeting : Toast :=
  {| toast_title := "Joining meeting";
     toast_description := "Opening Google Meet in a new tab...";
     toast_variant := None |}.

(** [!session.meetingLink] holds for a missing link and for the empty
    string. *)
Definition handleJoinSession (session : Session.t) : list JoinEffect :=
  match Session.meetingLink session with
  | Some ((String _ _) as link) =>
      [ ConsoleLog "Attempting to join meeting with link:" link;
        WindowOpen (meetingUrl link) "_blank";
        JoinToast joiningMeeting ]
  | _ => [ JoinToast noMeetingLink ]
  end.

(** Session card status styling. *)
Definition getStatusBadgeStyle (session : Session.t) : string :=
  match Session.status session with
  | pending =>
      "bg-yellow-100 dark:bg-yellow-900/30 text-yellow-800 dark:text-yellow-300 border-yellow-200 dark:border-yellow-800/50"
  | approved =>
      "bg-green-100 dark:bg-green-900/30 text-green-800 dark:text-green-300 border-green-200 dark:border-green-800/50"
  | completed =>
      "bg-blue-100 dark:bg-blue-900/30 text-blue-800 dark:text-blue-300 border-blue-200 dark:border-blue-800/50"
  | canceled | rejected =>
      "bg-red-100 dark:bg-red-900/30 text-red-800 dark:text-red-300 border-red-200 dark:border-red-800/50"
  end.

(** Gradient background based on status. *)
Definition getGradientBackground (session : Session.t) : string :=
  match Session.status session with
  | pending => "from-yellow-500/10 to-amber-600/5"
  | approved => "from-blue-500/10 to-indigo-600/5"
  | completed => "from-green-500/10 to-emerald-600/5"
  | canceled | rejected => "from-red-500/10 to-rose-600/5"
  end.

(** Shadow color based on status. *)
Definition getShadowStyle (session : Session.t) : string :=
  match Session.status session with
  | pending => "shadow-[0_0_20px_rgba(245,158,11,0.15)]"
  | approved => "shadow-[0_0_20px_rgba(59,130,246,0.15)]"
  | completed => "shadow-[0_0_20px_rgba(34,197,94,0.15)]"
  | canceled | rejected => "shadow-[0_0_20px_rgba(239,68,68,0.15)]"
  end.

(** Border color based on status. *)
Definition getBorderStyle (session : Session.t) : string :=
  match Session.status session with
  | pending => "border-yellow-200 dark:border-yellow-800/30"
  | approved => "border-blue-200 dark:border-blue-800/30"
  | completed => "border-green-200 dark:border-green-800/30"
  | canceled | rejected => "border-red-200 dark:border-red-800/30"
  end.

(** The handlers the component defines, as calls made on a card. The
    toasts of [handleJoinSession] go to the same toaster as all others. *)
Inductive Call :=
  | CallJoinSession
  | CallCancel (resp : Response)
  | CallLeaveFeedback
  | CallSetShowFeedbackModal (open : bool)
  | CallSubmitFeedback (resp : Response).

Definition joinSessionToasts (session : Session.t) : Act State :=
  λ w, foldl (λ w e, match e with
                     | JoinToast t => toast t w
                     | _ => w
                     end)
             w (handleJoinSession session).

Definition call (user : option User.t) (session : Session.t) (c : Call)
    (w : World State) : option (World State) :=
  match c with
  | CallJoinSession => Some (joinSessionToasts session w)
  | CallCancel resp => Some (handleCancel user session resp w)
  | CallLeaveFeedback => Some (handleLeaveFeedback w)
  | CallSetShowFeedbackModal open => Some (setShowFeedbackModal open w)
  | CallSubmitFeedback resp => submitFeedback user session resp w
  end.

(** A sequence of calls, each made with the session the card holds at that
    moment; [None] when a call throws. *)
Fixpoint calls (user : option User.t) (steps : list (Session.t * Call))
    (w : World State) : option (World State) :=
  match steps with
  | [] => Some w
  | (session, c) :: rest =>
      match call user session c w with
      | Some w' => calls user rest w'
      | None => None
      end
  end.

End SessionCard.

(** ** The skills-progress card *)

Module SkillsProgress.

Definition defaultValues : SkillFormValues :=
  {| form_name := ""; form_progress := 0 |}.

Record State := mkState {
  isAddingSkill : bool;
  form : SkillFormValues
}.

Definition initialState : State :=
  {| isAddingSkill := false; form := defaultValues |}.

Definition setIsAddingSkill (b : bool) : Act State :=
  setState (λ s, {| isAddingSkill := b; form := form s |}).

Definition formReset : Act State :=
  setState (λ s, {| isAddingSkill := isAddingSkill s; form := defaultValues |}).

Definition addSkillMutation : Mutation State SkillFormValues :=
  {| mutationFn := λ values,
       {| method := "POST"; url := "/api/skills"; body := SkillBody values |};
     onSuccess := λ _,
       invalidateQueries ["/api/skills"] >>
       setIsAddingSkill false >>
       formReset >>
       toast {| toast_title := "Skill added";
                toast_description := "Your new skill has been added successfully.";
                toast_variant := None |};
     onError := λ message,
       toast {| toast_title := "Failed to add skill";
                toast_description := message;
                toast_variant := Some "destructive" |} |}.

Record UpdateSkillVars := mkUpdateSkillVars {
  vars_id : Z;
  vars_progress : option Z
}.

Definition updateSkillMutation : Mutation State UpdateSkillVars :=
  {| mutationFn := λ v,
       {| method := "PUT";
          url := "/api/skills/" +:+ pretty (vars_id v);
          body := ProgressBody (vars_progress v) |};
     onSuccess := λ _,
       invalidateQueries ["/api/skills"] >>
       toast {| toast_title := "Skill updated";
                toast_description := "Your skill progress has been updated.";
                toast_variant := None |};
     onError := λ message,
       toast {| toast_title := "Failed to update skill";
                toast_description := message;
                toast_variant := Some "destructive" |} |}.

Definition onSubmit (values : SkillFormValues) (resp : Response) : Act State :=
  mutate addSkillMutation values resp.

(** [progress[0]] of the slider's value array; an empty array gives
    [undefined]. *)
Definition handleProgressChange (id : Z) (progress : list Z) (resp : Response)
  : Act State :=
  mutate updateSkillMutation
         {| vars_id := id; vars_progress := head progress |} resp.

Definition getColorClass (progress : Z) : string :=
  if (80 <=? progress)%Z then "bg-accent"
  else if (60 <=? progress)%Z then "bg-secondary"
  else if (40 <=? progress)%Z then "bg-primary"
  else if (20 <=? progress)%Z then "bg-purple-500"
  else "bg-red-500".

(** One rendered skill: its name, the percentage text, the colour class of
    the bar and the bar's width. *)
Record SkillRow := mkSkillRow {
  row_name : string;
  row_percent : string;
  row_color : string;
  row_width : string
}.

Definition skillRow (skill : Skill.t) : SkillRow :=
  {| row_name := Skill.name skill;
     row_percent := pretty (Skill.progress skill) +:+ "%";
     row_color := getColorClass (Skill.progress skill);
     row_width := pretty (Skill.progress skill) +:+ "%" |}.

Inductive PanelBody :=
  | SkillRows (rows : list SkillRow)
  | NoSkillsYet.

Inductive View :=
  | Nothing
  | Skeletons
  | Panel (body : PanelBody) (dialogOpen : bool).

(** The card's markup, from the viewer, the skills query ([data] and
    [isLoading]) and the card's state. *)
Definition SkillsProgress (user : option User.t)
    (skills : option (list Skill.t)) (isLoading : bool) (s : State) : View :=
  if bool_decide (user_role user ≠ Some mentee) then Nothing
  else if isLoading then Skeletons
  else Panel (match skills with
              | Some ((_ :: _) as l) => SkillRows (skillRow <$> l)
              | _ => NoSkillsYet
              end)
             (isAddingSkill s).

End SkillsProgress.

(** ** Queries as a component sees them *)

Record Query (A : Type) := mkQuery {
  data : option A;
  isLoading : bool
}.
Arguments mkQuery {A}.
Arguments data {A}.
Arguments isLoading {A}.

(** ** The stats overview *)

Module StatsOverview.

(** [Math.round]: the nearest integer, halves rounded up. *)
Definition Math_round (x : Q) : Z := Qfloor (x + (1 # 2))%Q.

Definition upcomingSessionsCount (upcomingSessions : option (list Session.t))
  : nat :=
  match upcomingSessions with
  | Some l => length l
  | None => 0%nat
  end.

(** Assuming 1 hour per session. *)
Definition totalHours (sessions : option (list Session.t)) : nat :=
  (match sessions with
   | Some l => length l
   | None => 0
   end * 1)%nat.

Definition activeMentorsCount (user : option User.t)
    (mentors : option (list User.t)) : nat :=
  if bool_decide (user_role user = Some mentee)
  then match mentors with
       | Some l => length l
       | None => 0%nat
       end
  else 0%nat.

Definition totalRating (feedback : list Feedback.t) : Z :=
  fold_left (λ sum item, sum + Feedback.rating item) feedback 0.

(** The average is kept as the reduced fraction, the one value the
    JavaScript number stands for. *)
Definition avgRating (feedback : option (list Feedback.t)) : Q :=
  match feedback with
  | Some ((_ :: _) as l) =>
      Qred (inject_Z
              (Math_round
                 ((inject_Z (totalRating l) / inject_Z (Z.of_nat (length l)))
                  * inject_Z 10))
            / inject_Z 10)%Q
  | _ => 0%Q
  end.

Inductive ConnectionsCard :=
  | ActiveMentors (value : nat)
  | ActiveMentees (value : nat).

(** The value of the feedback-score card: [`${avgRating}/5`] or the text
    ["No ratings"]. *)
Inductive Score :=
  | OutOfFive (avg : Q)
  | NoRatings.

Record Cards := mkCards {
  upcomingSessionsValue : nat;
  totalHoursValue : nat;
  hoursThisMonth : nat;
  connections : ConnectionsCard;
  feedbackScore : Score;
  basedOnSessions : nat
}.

Inductive View :=
  | Skeletons
  | Stats (cards : Cards).

Definition loading (user : option User.t)
    (sessionsLoading allSessionsLoading feedbackLoading mentorsLoading : bool)
  : bool :=
  sessionsLoading || allSessionsLoading || feedbackLoading
  || (bool_decide (user_role user = Some mentee) && mentorsLoading).

Definition StatsOverview (user : option User.t)
    (upcomingSessions sessions : Query (list Session.t))
    (feedback : Query (list Feedback.t))
    (mentors : Query (list User.t)) : View :=
  let upcomingSessionsCount := upcomingSessionsCount (data upcomingSessions) in
  let totalHours := totalHours (data sessions) in
  let activeMentorsCount := activeMentorsCount user (data mentors) in
  let avgRating := avgRating (data feedback) in
  if loading user (isLoading upcomingSessions) (isLoading sessions)
             (isLoading feedback) (isLoading mentors)
  then Skeletons
  else Stats
    {| upcomingSessionsValue := upcomingSessionsCount;
       totalHoursValue := totalHours;
       hoursThisMonth := (totalHours / 2)%nat;
       connections :=
         if bool_decide (user_role user = Some mentee)
         then ActiveMentors activeMentorsCount
         else ActiveMentees (if (0 <? upcomingSessionsCount)%nat
                             then upcomingSessionsCount else 0%nat);
       feedbackScore :=
         if Qeq_bool avgRating 0 then NoRatings else OutOfFive avgRating;
       basedOnSessions :=
         match data feedback with
         | Some l => length l
         | None => 0%nat
         end |}.

End StatsOverview.

(** ** The recommended-mentors card *)

Module RecommendedMentors.

(** Keep the mentors and take up to 4 for the recommendation section. *)
Definition recommendedMentors (mentors : option (list User.t))
  : option (list User.t) :=
  (λ l, take 4 (filter (λ m, User.role m = mentor) l)) <$> mentors.

Inductive View :=
  | Skeletons
  | Nothing
  | Panel (expertsAvailable : nat) (recommended : list User.t).

Definition RecommendedMentors (user : option User.t)
    (mentors : Query (list User.t)) : View :=
  if isLoading mentors then Skeletons
  else if bool_decide (user_role user ≠ Some mentee) then Nothing
  else Panel (match data mentors with Some l => length l | None => 0%nat end)
             (default [] (recommendedMentors (data mentors))).

(** The card's one cell: the mentor whose booking modal is open. *)
Definition handleConnectClick (mentor : User.t)
    (selectedMentor : option User.t) : option User.t :=
  Some mentor.

Definition closeModal (selectedMentor : option User.t) : option User.t := None.

(** What the viewer can click: the Connect button of a rendered mentor, or
    the closing of the booking modal, which is rendered with the panel while
    a mentor is selected. *)
Inductive Click :=
  | ClickConnect (mentor : User.t)
  | CloseBooking.

Definition click (user : option User.t) (mentors : Query (list User.t))
    (selectedMentor : option User.t) (c : Click) : option (option User.t) :=
  match RecommendedMentors user mentors with
  | Panel _ recommended =>
      match c with
      | ClickConnect chosen =>
          if bool_decide (chosen ∈ recommended)
          then Some (handleConnectClick chosen selectedMentor)
          else None
      | CloseBooking =>
          match selectedMentor with
          | Some _ => Some (closeModal selectedMentor)
          | None => None
          end
      end
  | _ => None
  end.

(** A sequence of clicks, each made on the card as rendered from the
    directory query of that moment; [None] when a click has no target. *)
Fixpoint clicks (user : option User.t) (selectedMentor : option User.t)
    (steps : list (Query (list User.t) * Click)) : option (option User.t) :=
  match steps with
  | [] => Some selectedMentor
  | (mentors, c) :: rest =>
      match click user mentors selectedMentor c with
      | Some selectedMentor' => clicks user selectedMentor' rest
      | None => None
      end
  end.

End RecommendedMentors.

(** ** The specification's vocabulary *)

(** Ownership as the specification words it: the viewer is the session's
    mentor and has the mentor role, or is its mentee and has the mentee
    role. *)
Definition isOwner (v : User.t) (s : Session.t) : Prop :=
  (User.role v = mentor ∧ User.id v = Session.mentorId s)
  ∨ (User.role v = mentee ∧ User.id v = Session.menteeId s).

(** Being one of the two participants, whatever the role. *)
Definition isParticipant (v : User.t) (s : Session.t) : Prop :=
  User.id v = Session.mentorId s ∨ User.id v = Session.menteeId s.

(** The three statuses without a further transition. *)
Definition terminal (st : Status) : Prop :=
  st = completed ∨ st = canceled ∨ st = rejected.

(** The four mutations of the specification's invalidation table. *)
Inductive MutationKind :=
  | ChangeSessionStatus
  | SubmitFeedback
  | AddSkill
  | UpdateSkillProgress.

(** The table of section 4.5, with the resource keys of section 6. *)
Definition invalidationTable (m : MutationKind) : list QueryKey :=
  match m with
  | ChangeSessionStatus =>
      [ ["/api/sessions"]; ["/api/sessions/upcoming"]; ["/api/activities"] ]
  | SubmitFeedback =>
      [ ["/api/feedback"]; ["/api/feedback/given"]; ["/api/activities"] ]
  | AddSkill => [ ["/api/skills"] ]
  | UpdateSkillProgress => [ ["/api/skills"] ]
  end.

Definition invalidateAll (keys : list QueryKey) (c : gmap QueryKey QueryState)
  : gmap QueryKey QueryState :=
  foldl (λ c key, invalidateIn key c) c keys.

(** What it means for a mutation to honour a row [keys] of the table.
    When the server accepts: the request goes out first, the invalidations
    issued after it are exactly [keys], cached queries under one of these
    keys are marked and all others are left alone. When the server refuses:
    the request went out, no invalidation is issued and the cache is
    unchanged. *)
Definition honoursInvalidations {S V} (m : Mutation S V) (keys : list QueryKey)
  : Prop :=
  ∀ (variables : V) (w : World S),
    (∃ rest,
        trace (mutate m variables Resolved w)
        = trace w ++ ApiRequest (mutationFn m variables) :: rest
        ∧ invalidations rest = keys
        ∧ requests rest = [])
    ∧ cache (mutate m variables Resolved w) = invalidateAll keys (cache w)
    ∧ (∀ k, Forall (λ key, ¬ key `prefix_of` k) keys →
            cache (mutate m variables Resolved w) !! k = cache w !! k)
    ∧ (∀ k, Exists (λ key, key `prefix_of` k) keys →
            cache (mutate m variables Resolved w) !! k
            = markInvalidated <$> cache w !! k)
    ∧ (∀ message,
          (∃ rest,
              trace (mutate m variables (Rejected message) w)
              = trace w ++ ApiRequest (mutationFn m variables) :: rest
              ∧ invalidations rest = []
              ∧ requests rest = [])
          ∧ cache (mutate m variables (Rejected message) w) = cache w).

(** A query that has finished loading with the collection [l]. *)
Definition loaded {A} (l : list A) : Query (list A) :=
  {| data := Some l; isLoading := false |}.

(** The mean of the ratings of a feedback collection, as a fraction. *)
Definition ratingsMean (l : list Feedback.t) : Q :=
  (inject_Z (foldr Z.add 0%Z (Feedback.rating <$> l))
   / inject_Z (Z.of_nat (length l)))%Q.

(** [r] is [x] rounded to one decimal: a whole number of tenths, the one
    nearest to [x], the upper one when [x] is halfway between two. *)
Definition roundedTo1Decimal (x r : Q) : Prop :=
  (∃ k : Z, r == inject_Z k / 10)%Q
  ∧ (x - (1 # 20) < r)%Q ∧ (r <= x + (1 # 20))%Q.

(** A query that is not loading and holds no data, as after a failed
    fetch. *)
Definition noData {A} : Query A := {| data := None; isLoading := false |}.

(** A mutation reports its outcome once: a success by one notification
    that is not destructive, a failure by one destructive notification that
    has the title [failureTitle] and carries the server's message. *)
Definition reportsOutcomeOnce {S V} (m : Mutation S V) (failureTitle : string)
  : Prop :=
  ∀ (variables : V) (w : World S),
    (∃ t, toasts (trace (mutate m variables Resolved w))
          = toasts (trace w) ++ [t]
          ∧ toast_variant t = None)
    ∧ (∀ message,
         toasts (trace (mutate m variables (Rejected message) w))
         = toasts (trace w)
           ++ [ {| toast_title := failureTitle;
                   toast_description := message;
                   toast_variant := Some "destructive" |} ]).

(** The two statuses the card styles alike. *)
Definition styledAsClosed (st : Status) : Prop := st = canceled ∨ st = rejected.

(** A full name always holds the blank that joins its two parts; the role
    labels hold none, so a label is never mistaken for a name. *)
Fixpoint hasBlank (t : string) : bool :=
  match t with
  | EmptyString => false
  | String c t' => bool_decide (c = " "%char) || hasBlank t'
  end.

(** ** Sample data

    The session of the specification's scenarios (id 7, mentor 1, mentee 2)
    with its two participants and a third user who takes no part in it. *)
Definition session7 (st : Status) : Session.t :=
  Session.mk 7 1 2 "Career planning" "2025-03-14" "10:30" st None None.

Definition theMentor : User.t :=
  User.mk 1 mentor "Ada" "Byron" None None None.

Definition theMentee : User.t :=
  User.mk 2 mentee "Alan" "Kay" None None None.

Definition outsider : User.t :=
  User.mk 3 mentee "Grace" "Lin" None None None.

Definition freshCard : World SessionCard.State :=
  mkWorld SessionCard.initialState ∅ [].

(** A card opened while the sessions list and the skills list are cached. *)
Definition warmCard : World SessionCard.State :=
  mkWorld SessionCard.initialState
    (<[ ["/api/sessions"] :=
          {| snapshot := Some (SessionsData [session7 approved]);
             isInvalidated := false |} ]>
       (<[ ["/api/skills"] :=
             {| snapshot := Some (SkillsData [Skill.mk 1 "Leadership" 40]);
                isInvalidated := false |} ]> ∅))
    [].

(** The stats scenario: 3 upcoming sessions, 10 sessions, two feedback
    entries rated 4 and 5, 6 mentors in the directory. *)
Definition scenarioUpcoming : list Session.t := replicate 3 (session7 approved).
Definition scenarioSessions : list Session.t := replicate 10 (session7 completed).
Definition scenarioFeedback : list Feedback.t :=
  [Feedback.mk 7 2 1 4 ""; Feedback.mk 8 2 1 5 "Thanks"].
Definition scenarioMentors : list User.t := replicate 6 theMentor.

(** A directory of seven entries, two of which are not mentors. *)
Definition sampleDirectory : list User.t :=
  [theMentor; theMentee; theMentor; theMentor; outsider; theMentor; theMentor].

(** Session 7, approved, with a given meeting link. *)
Definition session7WithLink (link : option string) : Session.t :=
  Session.mk 7 1 2 "Career planning" "2025-03-14" "10:30" approved link None.

(** * Properties *)

(** ** The effect layer *)

Section Effects.
Context {S : Type}.
Implicit Types (w : World S) (e : Event) (k key : QueryKey).

Lemma requests_app (t1 t2 : list Event) :
  requests (t1 ++ t2) = requests t1 ++ requests t2.
Proof. apply omap_app. Qed.

Lemma invalidations_app (t1 t2 : list Event) :
  invalidations (t1 ++ t2) = invalidations t1 ++ invalidations t2.
Proof. apply omap_app. Qed.

Lemma toasts_app (t1 t2 : list Event) :
  toasts (t1 ++ t2) = toasts t1 ++ toasts t2.
Proof. apply omap_app. Qed.

Lemma lookup_invalidateIn key (c : gmap QueryKey QueryState) k :
  invalidateIn key c !! k
  = (λ q, if bool_decide (key `prefix_of` k) then markInvalidated q else q)
      <$> c !! k.
Proof.
  unfold invalidateIn. rewrite map_lookup_imap.
  destruct (c !! k); reflexivity.
Qed.

(** Invalidation keeps every snapshot: consumers go on showing the last
    good data. *)
Lemma invalidateIn_snapshot key (c : gmap QueryKey QueryState) k :
  snapshot <$> invalidateIn key c !! k = snapshot <$> c !! k.
Proof.
  rewrite lookup_invalidateIn. destruct (c !! k) as [q|]; simpl; [|done].
  case_bool_decide; reflexivity.
Qed.

(** Invalidating the same key twice is invalidating it once. *)
Lemma invalidateIn_idemp key (c : gmap QueryKey QueryState) :
  invalidateIn key (invalidateIn key c) = invalidateIn key c.
Proof.
  apply map_eq; intros k. rewrite !lookup_invalidateIn.
  destruct (c !! k) as [q|]; simpl; [|done].
  case_bool_decide; reflexivity.
Qed.

(** A rejected mutation runs its error callback after the request, and
    nothing else. *)
Lemma mutate_rejected {V} (m : Mutation S V) (vars : V) message w :
  mutate m vars (Rejected message) w
  = onError m message (apiRequest (mutationFn m vars) w).
Proof. reflexivity. Qed.

Lemma mutate_resolved {V} (m : Mutation S V) (vars : V) w :
  mutate m vars Resolved w
  = onSuccess m vars (apiRequest (mutationFn m vars) w).
Proof. reflexivity. Qed.

End Effects.

(** ** Ownership and the participant's name *)

Section Ownership.
Variables (v : User.t) (s : Session.t).

Lemma isOwnSession_isOwner :
  SessionCard.isOwnSession (Some v) s = true ↔ isOwner v s.
Proof.
  unfold SessionCard.isOwnSession, isOwner, user_role, user_id; simpl.
  destruct (User.role v); repeat case_bool_decide;
    intuition (congruence || discriminate).
Qed.

Lemma isOwner_isParticipant : isOwner v s → isParticipant v s.
Proof. unfold isOwner, isParticipant. tauto. Qed.

Lemma shouldShowFullName_spec :
  SessionCard.shouldShowFullName (Some v) s = true
  ↔ isOwner v s ∧ Session.status s = completed.
Proof.
  unfold SessionCard.shouldShowFullName.
  rewrite andb_true_iff, isOwnSession_isOwner, bool_decide_eq_true.
  reflexivity.
Qed.

End Ownership.

Lemma isOwnSession_anonymous (s : Session.t) :
  SessionCard.isOwnSession None s = false.
Proof. reflexivity. Qed.

Lemma fullName_hasBlank (p : User.t) : hasBlank (SessionCard.fullName p) = true.
Proof.
  unfold SessionCard.fullName.
  induction (User.firstName p) as [|c t IH]; simpl.
  - reflexivity.
  - rewrite IH. apply orb_true_r.
Qed.

Lemma roleLabel_cases (user : option User.t) :
  SessionCard.roleLabel user = "Mentor" ∨ SessionCard.roleLabel user = "Mentee".
Proof. unfold SessionCard.roleLabel. destruct (SessionCard.isMentor user); auto. Qed.

Lemma roleLabel_not_a_name (user : option User.t) (p : User.t) :
  SessionCard.roleLabel user ≠ SessionCard.fullName p.
Proof.
  intros E. pose proof (fullName_hasBlank p) as H. rewrite <- E in H.
  destruct (roleLabel_cases user) as [L|L]; rewrite L in H; discriminate.
Qed.

(** C1, as the card behaves: the other participant's full name is shown iff
    the viewer owns the session, the session is completed and the
    participant's profile has been fetched; in every other combination,
    non-owner with completed status included, the card shows the role label
    of the other side ("Mentee" to a mentor, "Mentor" to a mentee), which is
    nobody's full name. *)
Theorem participantName_privacy
    (v : User.t) (s : Session.t) (participant : option User.t) :
  ((∃ p, participant = Some p
         ∧ SessionCard.participantName (Some v) s participant
           = SessionCard.fullName p)
   ↔ isOwner v s ∧ Session.status s = completed ∧ is_Some participant)
  ∧ (¬ (isOwner v s ∧ Session.status s = completed ∧ is_Some participant) →
     SessionCard.participantName (Some v) s participant
     = match User.role v with mentor => "Mentee" | mentee => "Mentor" end
     ∧ ∀ p, SessionCard.participantName (Some v) s participant
            ≠ SessionCard.fullName p).
Proof.
  pose proof (shouldShowFullName_spec v s) as Hshow.
  assert (Hlabel : SessionCard.roleLabel (Some v)
                   = match User.role v with
                     | mentor => "Mentee" | mentee => "Mentor" end).
  { unfold SessionCard.roleLabel, SessionCard.isMentor, user_role; simpl.
    destruct (User.role v); reflexivity. }
  unfold SessionCard.participantName.
  destruct (SessionCard.shouldShowFullName (Some v) s) eqn:E.
  - destruct (proj1 Hshow eq_refl) as [Hown Hdone].
    destruct participant as [p|]; split.
    + split; [intros _; eauto | intros _; eauto].
    + intros Hn. destruct Hn. eauto.
    + split; [intros (p & Hp & _); discriminate Hp
             | intros (_ & _ & [p Hp]); discriminate Hp].
    + intros _. split; [exact Hlabel | apply roleLabel_not_a_name].
  - assert (Hno : ¬ (isOwner v s ∧ Session.status s = completed)).
    { intros H. apply Hshow in H. discriminate H. }
    split.
    + split.
      * intros (p & _ & Hp). exfalso. exact (roleLabel_not_a_name _ _ Hp).
      * intros (Hown & Hdone & _). exfalso. exact (Hno (conj Hown Hdone)).
    + intros _. split; [exact Hlabel | apply roleLabel_not_a_name].
Qed.

Lemma participantName_privacy_witness :
  ¬ (isOwner outsider (session7 completed)
     ∧ Session.status (session7 completed) = completed
     ∧ is_Some (Some theMentor))
  ∧ SessionCard.participantName (Some outsider) (session7 completed)
      (Some theMentor) = "Mentor".
Proof.
  assert (H : ¬ (isOwner outsider (session7 completed)
                 ∧ Session.status (session7 completed) = completed
                 ∧ is_Some (Some theMentor))).
  { intros [[[_ H]|[_ H]] _]; vm_compute in H; discriminate H. }
  split; [exact H|].
  exact (proj1 (proj2 (participantName_privacy outsider (session7 completed)
                         (Some theMentor)) H)).
Defined.

(** C1 as stated fails: the mentor owns the completed session 7, yet while
    the mentee's profile is not fetched the card shows the label. *)
Lemma participantName_unfetched_counterexample :
  isOwner theMentor (session7 completed)
  ∧ Session.status (session7 completed) = completed
  ∧ SessionCard.participantName (Some theMentor) (session7 completed) None
    = "Mentee".
Proof.
  split; [left; split; reflexivity|]. split; reflexivity.
Qed.

(** ** Cancelling a session *)

(** C2: a viewer who is neither the mentor nor the mentee of the session
    gets the "Permission Denied" notification and nothing else happens: no
    request is dispatched, no invalidation is issued, the cache and the
    card's state stay as they were. *)
Theorem handleCancel_non_participant
    (v : User.t) (s : Session.t) (resp : Response)
    (w : World SessionCard.State) :
  User.id v ≠ Session.mentorId s →
  User.id v ≠ Session.menteeId s →
  let w' := SessionCard.handleCancel (Some v) s resp w in
  trace w' = trace w ++ [ShowToast SessionCard.permissionDenied]
  ∧ toast_title SessionCard.permissionDenied = "Permission Denied"
  ∧ requests (trace w') = requests (trace w)
  ∧ invalidations (trace w') = invalidations (trace w)
  ∧ cache w' = cache w
  ∧ ui w' = ui w.
Proof.
  intros Hm He. unfold SessionCard.handleCancel, user_id; simpl.
  rewrite !bool_decide_eq_true_2 by congruence. simpl.
  unfold toast, emit, requests, invalidations; simpl.
  rewrite !omap_app; simpl. rewrite !app_nil_r. repeat split; reflexivity.
Qed.

Lemma handleCancel_non_participant_witness :
  User.id outsider ≠ Session.mentorId (session7 approved)
  ∧ User.id outsider ≠ Session.menteeId (session7 approved)
  ∧ requests (trace (SessionCard.handleCancel (Some outsider)
                       (session7 approved) Resolved freshCard))
    = requests (trace freshCard).
Proof.
  assert (H1 : User.id outsider ≠ Session.mentorId (session7 approved))
    by (vm_compute; discriminate).
  assert (H2 : User.id outsider ≠ Session.menteeId (session7 approved))
    by (vm_compute; discriminate).
  split; [exact H1|]. split; [exact H2|].
  exact (proj1 (proj2 (proj2 (handleCancel_non_participant outsider
                                (session7 approved) Resolved freshCard H1 H2)))).
Defined.

Lemma cancel_offered_iff (user : option User.t) (s : Session.t) :
  SessionCard.Cancel ∈ SessionCard.actionButtons user s
  ↔ Session.status s = approved
    ∨ ((Some (Session.mentorId s) = user_id user
        ∨ Some (Session.menteeId s) = user_id user)
       ∧ ¬ terminal (Session.status s)).
Proof.
  unfold SessionCard.actionButtons, terminal.
  rewrite elem_of_app.
  destruct (Session.status s); simpl;
    repeat case_bool_decide; simpl;
    rewrite ?elem_of_cons, ?elem_of_nil;
    intuition (congruence || discriminate).
Qed.

(** C3, as the card behaves: a cancel button is rendered, and a click on it
    can reach [handleCancel], only while the session is pending or approved
    (for a pending session only when the viewer is its mentor or mentee; for
    an approved one always); for a completed, canceled or rejected session
    no cancel button is rendered and nothing can be clicked. *)
Theorem cancel_only_before_terminal (user : option User.t) (s : Session.t) :
  (SessionCard.Cancel ∈ SessionCard.actionButtons user s →
   Session.status s = pending ∨ Session.status s = approved)
  ∧ (∀ resp w w', SessionCard.clickCancel user s resp w = Some w' →
       Session.status s = pending ∨ Session.status s = approved)
  ∧ (Session.status s = approved →
       SessionCard.Cancel ∈ SessionCard.actionButtons user s)
  ∧ (Session.status s = pending →
       (SessionCard.Cancel ∈ SessionCard.actionButtons user s
        ↔ Some (Session.mentorId s) = user_id user
          ∨ Some (Session.menteeId s) = user_id user))
  ∧ (terminal (Session.status s) →
       (SessionCard.Cancel ∉ SessionCard.actionButtons user s)
       ∧ ∀ resp w, SessionCard.clickCancel user s resp w = None).
Proof.
  assert (Hoffer : SessionCard.Cancel ∈ SessionCard.actionButtons user s →
                   Session.status s = pending ∨ Session.status s = approved).
  { rewrite cancel_offered_iff. unfold terminal.
    destruct (Session.status s); intuition (congruence || discriminate). }
  assert (Hterm : terminal (Session.status s) →
                  SessionCard.Cancel ∉ SessionCard.actionButtons user s).
  { intros Ht Hin. apply Hoffer in Hin. unfold terminal in Ht.
    destruct Hin as [E|E]; rewrite E in Ht;
      destruct Ht as [H|[H|H]]; discriminate H. }
  split; [exact Hoffer|]. split; [|split; [|split]].
  - intros resp w w'. unfold SessionCard.clickCancel.
    case_bool_decide; [intros _; auto | discriminate].
  - intros E. apply cancel_offered_iff. auto.
  - intros E. rewrite cancel_offered_iff, E. unfold terminal.
    intuition (congruence || discriminate).
  - intros Ht. split; [auto|]. intros resp w.
    unfold SessionCard.clickCancel. rewrite bool_decide_eq_false_2; auto.
Qed.

Lemma cancel_only_before_terminal_witness :
  terminal (Session.status (session7 completed))
  ∧ SessionCard.clickCancel (Some theMentee) (session7 completed)
      Resolved freshCard = None.
Proof.
  assert (H : terminal (Session.status (session7 completed)))
    by (left; reflexivity).
  split; [exact H|].
  exact (proj2 (proj2 (proj2 (proj2 (proj2
           (cancel_only_before_terminal (Some theMentee) (session7 completed)))))
           H) Resolved freshCard).
Defined.

(** C3 as stated fails: session 7 is pending, not approved, and its mentee
    is offered a cancel button whose click asks the server for the
    transition into canceled. *)
Lemma cancel_offered_when_pending_counterexample :
  Session.status (session7 pending) ≠ approved
  ∧ SessionCard.Cancel ∈ SessionCard.actionButtons (Some theMentee)
                                                   (session7 pending)
  ∧ (λ w, requests (trace w))
      <$> SessionCard.clickCancel (Some theMentee) (session7 pending)
            Resolved freshCard
    = Some [ {| method := "PUT"; url := "/api/sessions/7";
                body := StatusBody canceled |} ].
Proof.
  split; [discriminate|]. split.
  - apply cancel_offered_iff. right. split; [right; reflexivity|].
    intros [H|[H|H]]; discriminate H.
  - vm_compute. reflexivity.
Qed.

(** ** Feedback *)




(** Submitting always dispatches one request, whose payload is built from
    the session, the viewer and the card's cells; what follows is the
    callback the server's answer selects. *)
Lemma submitFeedback_trace (v : User.t) (s : Session.t) (resp : Response)
    (w : World SessionCard.State) :
  ∃ w', SessionCard.submitFeedback (Some v) s resp w = Some w'
    ∧ requests (trace w')
      = requests (trace w)
        ++ [ {| method := "POST"; url := "/api/feedback";
                body := FeedbackBody (SessionCard.feedbackData v s (ui w)) |} ]
    ∧ toasts (trace w')
      = toasts (trace w)
        ++ [ match resp with
             | Resolved =>
                 {| toast_title := "Feedback submitted";
                    toast_description := "Thank you for your feedback!";
                    toast_variant := None |}
             | Rejected message =>
                 {| toast_title := "Failed to submit feedback";
                    toast_description := message;
                    toast_variant := Some "destructive" |}
             end ].
Proof.
  eexists. split; [reflexivity|].
  destruct resp; simpl; rewrite ?requests_app, ?toasts_app; simpl;
    rewrite ?app_nil_r; split; reflexivity.
Qed.

(** None of the card's handlers writes the rating or the comment cell: they
    keep the values [useState] gave them. *)
Lemma handlers_keep_rating (user : option User.t) (s : Session.t)
    (resp : Response) (w : World SessionCard.State) :
  SessionCard.rating (ui (SessionCard.handleCancel user s resp w))
  = SessionCard.rating (ui w)
  ∧ SessionCard.rating (ui (SessionCard.handleLeaveFeedback w))
    = SessionCard.rating (ui w)
  ∧ (∀ w', SessionCard.submitFeedback user s resp w = Some w' →
           SessionCard.rating (ui w') = SessionCard.rating (ui w)).
Proof.
  split; [|split].
  - unfold SessionCard.handleCancel.
    destruct (_ && _); [reflexivity|].
    destruct resp; simpl; repeat case_bool_decide; reflexivity.
  - reflexivity.
  - intros w'. unfold SessionCard.submitFeedback.
    destruct user as [u|]; [|discriminate].
    intros [= <-]. destruct resp; reflexivity.
Qed.

(** One call keeps the rating and the comment cell, and any feedback payload
    it sends carries the values of these two cells. *)
Lemma call_keeps_cells (user : option User.t) (s : Session.t)
    (c : SessionCard.Call) (w w' : World SessionCard.State) :
  SessionCard.call user s c w = Some w' →
  SessionCard.rating (ui w') = SessionCard.rating (ui w)
  ∧ SessionCard.comment (ui w') = SessionCard.comment (ui w)
  ∧ ∃ new, requests (trace w') = requests (trace w) ++ new
           ∧ ∀ r fd, r ∈ new → body r = FeedbackBody fd →
               Feedback.rating fd = SessionCard.rating (ui w)
               ∧ Feedback.comment fd = SessionCard.comment (ui w).
Proof.
  destruct c as [|resp| |open|resp]; simpl.
  - intros [= <-]. unfold SessionCard.joinSessionToasts,
      SessionCard.handleJoinSession.
    destruct (Session.meetingLink s) as [[|ch t]|]; simpl;
      (split; [reflexivity|]); (split; [reflexivity|]); exists [];
      rewrite ?requests_app; simpl; rewrite ?app_nil_r;
      (split; [reflexivity|]); intros r fd Hr; apply elem_of_nil in Hr; done.
  - intros [= <-]. unfold SessionCard.handleCancel.
    destruct (_ && _).
    + split; [reflexivity|]. split; [reflexivity|]. exists [].
      simpl. rewrite requests_app. simpl.
      split; [reflexivity|]. intros r fd Hr. apply elem_of_nil in Hr. done.
    + assert (Hui : ui (mutate (SessionCard.updateSessionMutation user)
                          {| SessionCard.vars_id := Session.id s;
                             SessionCard.vars_status := canceled |} resp w)
                    = ui w) by (destruct resp; reflexivity).
      rewrite Hui. split; [reflexivity|]. split; [reflexivity|].
      exists [ {| method := "PUT";
                  url := "/api/sessions/" +:+ pretty (Session.id s);
                  body := StatusBody canceled |} ].
      split.
      * destruct resp; simpl; rewrite !requests_app; simpl;
          rewrite !app_nil_r; reflexivity.
      * intros r fd Hr Hb. apply list_elem_of_singleton in Hr. subst r.
        discriminate Hb.
  - intros [= <-]. split; [reflexivity|]. split; [reflexivity|].
    exists []. simpl. rewrite app_nil_r. split; [reflexivity|].
    intros r fd Hr. apply elem_of_nil in Hr. done.
  - intros [= <-]. split; [reflexivity|]. split; [reflexivity|].
    exists []. simpl. rewrite app_nil_r. split; [reflexivity|].
    intros r fd Hr. apply elem_of_nil in Hr. done.
  - destruct user as [u|]; [|discriminate].
    destruct (submitFeedback_trace u s resp w) as (w1 & E & Hreq & _).
    rewrite E. intros [= <-].
    assert (Hui : SessionCard.rating (ui w1) = SessionCard.rating (ui w)
                  ∧ SessionCard.comment (ui w1) = SessionCard.comment (ui w)).
    { unfold SessionCard.submitFeedback in E. injection E as <-.
      destruct resp; split; reflexivity. }
    split; [apply Hui|]. split; [apply Hui|].
    eexists. split; [exact Hreq|].
    intros r fd Hr Hb. apply list_elem_of_singleton in Hr. subst r.
    simpl in Hb. injection Hb as <-. split; reflexivity.
Qed.

(** Over any sequence of calls the two cells keep their values, and every
    feedback payload sent along the way carries them. *)
Lemma calls_keep_cells (user : option User.t)
    (steps : list (Session.t * SessionCard.Call))
    (w w' : World SessionCard.State) :
  SessionCard.calls user steps w = Some w' →
  SessionCard.rating (ui w') = SessionCard.rating (ui w)
  ∧ SessionCard.comment (ui w') = SessionCard.comment (ui w)
  ∧ ∃ new, requests (trace w') = requests (trace w) ++ new
           ∧ ∀ r fd, r ∈ new → body r = FeedbackBody fd →
               Feedback.rating fd = SessionCard.rating (ui w)
               ∧ Feedback.comment fd = SessionCard.comment (ui w).
Proof.
  revert w. induction steps as [|[s c] rest IH]; intros w; simpl.
  - intros [= <-]. split; [reflexivity|]. split; [reflexivity|].
    exists []. rewrite app_nil_r. split; [reflexivity|].
    intros r fd Hr. apply elem_of_nil in Hr. done.
  - destruct (SessionCard.call user s c w) as [w1|] eqn:E; [|discriminate].
    intros Hrest.
    destruct (call_keeps_cells _ _ _ _ _ E) as (Hr1 & Hc1 & new1 & Hq1 & Hn1).
    destruct (IH w1 Hrest) as (Hr2 & Hc2 & new2 & Hq2 & Hn2).
    split; [congruence|]. split; [congruence|].
    exists (new1 ++ new2). split.
    + rewrite Hq2, Hq1, app_assoc. reflexivity.
    + intros r fd Hr Hb. apply elem_of_app in Hr as [Hr|Hr].
      * exact (Hn1 r fd Hr Hb).
      * rewrite <- Hr1, <- Hc1. exact (Hn2 r fd Hr Hb).
Qed.



(** C6: the recipient of a feedback record is read off the session by the
    viewer's role: the mentee for a mentor, the mentor for a mentee. It is
    one of the session's two participants, it does not depend on anything
    the card's cells hold, it is the payload that is dispatched, and for an
    owner of a session with two distinct participants it is the other
    one. *)
Theorem feedback_toId_other_participant (v : User.t) (s : Session.t)
    (st : SessionCard.State) :
  let fd := SessionCard.feedbackData v s st in
  (User.role v = mentor → Feedback.toId fd = Session.menteeId s)
  ∧ (User.role v = mentee → Feedback.toId fd = Session.mentorId s)
  ∧ (Feedback.toId fd = Session.mentorId s
     ∨ Feedback.toId fd = Session.menteeId s)
  ∧ (∀ st', Feedback.toId (SessionCard.feedbackData v s st')
            = Feedback.toId fd)
  ∧ (isOwner v s → Session.mentorId s ≠ Session.menteeId s →
     Feedback.toId fd ≠ User.id v)
  ∧ (∀ resp cache0 trace0, ∃ w',
       SessionCard.submitFeedback (Some v) s resp (mkWorld st cache0 trace0)
       = Some w'
       ∧ requests (trace w')
         = requests trace0
           ++ [ {| method := "POST"; url := "/api/feedback";
                   body := FeedbackBody fd |} ]).
Proof.
  unfold SessionCard.feedbackData, SessionCard.isMentor, user_role, isOwner;
    simpl.
  split; [|split; [|split; [|split; [|split]]]].
  - intros ->. reflexivity.
  - intros ->. reflexivity.
  - destruct (User.role v); simpl; auto.
  - reflexivity.
  - destruct (User.role v); simpl;
      intros [[Hr Hi]|[Hr Hi]] Hne; try discriminate Hr; congruence.
  - intros resp cache0 trace0.
    destruct (submitFeedback_trace v s resp (mkWorld st cache0 trace0))
      as (w' & E & Hr & _).
    exists w'. split; [exact E|exact Hr].
Qed.

Lemma feedback_toId_other_participant_witness :
  User.role theMentee = mentee
  ∧ Feedback.toId (SessionCard.feedbackData theMentee (session7 completed)
                     SessionCard.initialState) = 1.
Proof.
  split; [reflexivity|].
  exact (proj1 (proj2 (feedback_toId_other_participant theMentee
                         (session7 completed) SessionCard.initialState))
               eq_refl).
Defined.

(** ** Cache synchronisation *)

Lemma lookup_invalidateAll (keys : list QueryKey)
    (c : gmap QueryKey QueryState) (k : QueryKey) :
  invalidateAll keys c !! k
  = (λ q, if bool_decide (Exists (λ key, key `prefix_of` k) keys)
          then markInvalidated q else q) <$> c !! k.
Proof.
  unfold invalidateAll. revert c.
  induction keys as [|key keys IH]; intros c; cbn [foldl].
  - destruct (c !! k) as [q|]; reflexivity.
  - rewrite IH, lookup_invalidateIn.
    destruct (c !! k) as [q|]; [|reflexivity].
    cbn [fmap option_fmap option_map]. f_equal.
    repeat case_bool_decide; try reflexivity; exfalso;
      rewrite Exists_cons in *; tauto.
Qed.

(** A mutation whose callbacks have the right shape honours its row. *)
Lemma honoursInvalidations_intro {S V} (m : Mutation S V)
    (keys : list QueryKey) :
  (∀ variables (w : World S), ∃ rest,
      trace (onSuccess m variables w) = trace w ++ rest
      ∧ invalidations rest = keys ∧ requests rest = []) →
  (∀ variables (w : World S),
      cache (onSuccess m variables w) = invalidateAll keys (cache w)) →
  (∀ message (w : World S), ∃ rest,
      trace (onError m message w) = trace w ++ rest
      ∧ invalidations rest = [] ∧ requests rest = []) →
  (∀ message (w : World S), cache (onError m message w) = cache w) →
  honoursInvalidations m keys.
Proof.
  intros Hst Hsc Het Hec variables w.
  assert (Hc : cache (mutate m variables Resolved w)
               = invalidateAll keys (cache w)).
  { rewrite mutate_resolved, Hsc. reflexivity. }
  split; [|split; [exact Hc|split; [|split]]].
  - destruct (Hst variables (apiRequest (mutationFn m variables) w))
      as (rest & Ht & Hi & Hr).
    exists rest. rewrite mutate_resolved, Ht. simpl.
    rewrite <- app_assoc. auto.
  - intros k Hk. rewrite Hc, lookup_invalidateAll.
    rewrite bool_decide_eq_false_2.
    + destruct (cache w !! k); reflexivity.
    + rewrite Exists_exists. rewrite Forall_forall in Hk.
      intros (key & Hin & Hp). exact (Hk key Hin Hp).
  - intros k Hk. rewrite Hc, lookup_invalidateAll.
    rewrite bool_decide_eq_true_2 by exact Hk. reflexivity.
  - intros message. split.
    + destruct (Het message (apiRequest (mutationFn m variables) w))
        as (rest & Ht & Hi & Hr).
      exists rest. rewrite mutate_rejected, Ht. simpl.
      rewrite <- app_assoc. auto.
    + rewrite mutate_rejected, Hec. reflexivity.
Qed.

Lemma updateSessionMutation_honours (user : option User.t) :
  honoursInvalidations (SessionCard.updateSessionMutation user)
                       (invalidationTable ChangeSessionStatus).
Proof.
  apply honoursInvalidations_intro.
  - intros [id st] w. destruct st; eexists; simpl;
      rewrite <- !app_assoc; simpl; (split; [reflexivity|]);
      split; reflexivity.
  - intros [id st] w. destruct st; reflexivity.
  - intros message w. eexists. simpl. split; [reflexivity|].
    split; reflexivity.
  - reflexivity.
Qed.

Lemma submitFeedbackMutation_honours :
  honoursInvalidations SessionCard.submitFeedbackMutation
                       (invalidationTable SubmitFeedback).
Proof.
  apply honoursInvalidations_intro.
  - intros fd w. eexists. simpl. rewrite <- !app_assoc; simpl.
    split; [reflexivity|]. split; reflexivity.
  - reflexivity.
  - intros message w. eexists. simpl. split; [reflexivity|].
    split; reflexivity.
  - reflexivity.
Qed.

Lemma addSkillMutation_honours :
  honoursInvalidations SkillsProgress.addSkillMutation
                       (invalidationTable AddSkill).
Proof.
  apply honoursInvalidations_intro.
  - intros values w. eexists. simpl. rewrite <- !app_assoc; simpl.
    split; [reflexivity|]. split; reflexivity.
  - reflexivity.
  - intros message w. eexists. simpl. split; [reflexivity|].
    split; reflexivity.
  - reflexivity.
Qed.

Lemma updateSkillMutation_honours :
  honoursInvalidations SkillsProgress.updateSkillMutation
                       (invalidationTable UpdateSkillProgress).
Proof.
  apply honoursInvalidations_intro.
  - intros vars w. eexists. simpl. rewrite <- !app_assoc; simpl.
    split; [reflexivity|]. split; reflexivity.
  - reflexivity.
  - intros message w. eexists. simpl. split; [reflexivity|].
    split; reflexivity.
  - reflexivity.
Qed.

(** C7: each of the four mutations honours its row of the invalidation
    table. After the server's success response it issues exactly the row's
    keys (sessions, upcoming sessions and activities for a status change;
    feedback, feedback-given and activities for a feedback submission; skills
    for the two skill mutations), all of them after the request, and cached
    queries outside these keys are untouched; when the server refuses, no
    invalidation is issued and the cache is exactly as before. *)
Theorem mutations_honour_invalidation_table :
  (∀ user, honoursInvalidations (SessionCard.updateSessionMutation user)
                                (invalidationTable ChangeSessionStatus))
  ∧ honoursInvalidations SessionCard.submitFeedbackMutation
                         (invalidationTable SubmitFeedback)
  ∧ honoursInvalidations SkillsProgress.addSkillMutation
                         (invalidationTable AddSkill)
  ∧ honoursInvalidations SkillsProgress.updateSkillMutation
                         (invalidationTable UpdateSkillProgress).
Proof.
  split; [exact updateSessionMutation_honours|].
  split; [exact submitFeedbackMutation_honours|].
  split; [exact addSkillMutation_honours|exact updateSkillMutation_honours].
Qed.

Lemma mutations_honour_invalidation_table_witness :
  Forall (λ key, ¬ key `prefix_of` ["/api/skills"])
         (invalidationTable ChangeSessionStatus)
  ∧ cache (mutate (SessionCard.updateSessionMutation (Some theMentee))
                  {| SessionCard.vars_id := 7;
                     SessionCard.vars_status := canceled |}
                  Resolved warmCard) !! ["/api/skills"]
    = cache warmCard !! ["/api/skills"].
Proof.
  assert (H : Forall (λ key, ¬ key `prefix_of` ["/api/skills"])
                     (invalidationTable ChangeSessionStatus)).
  { repeat constructor; intros [k Hk]; simpl in Hk; discriminate Hk. }
  split; [exact H|].
  exact (proj1 (proj2 (proj2
           (proj1 mutations_honour_invalidation_table (Some theMentee)
              {| SessionCard.vars_id := 7;
                 SessionCard.vars_status := canceled |} warmCard)))
           ["/api/skills"] H).
Defined.

(** ** The stats overview *)

(** C8: the skeleton placeholders are rendered exactly while one of the
    required collections is loading (upcoming sessions, all sessions, all
    feedback, and the mentor directory when the viewer is a mentee); the
    aggregate cards are rendered exactly when none of them is. *)
Theorem stats_loading_gate (user : option User.t)
    (upcomingSessions sessions : Query (list Session.t))
    (feedback : Query (list Feedback.t)) (mentors : Query (list User.t)) :
  (StatsOverview.StatsOverview user upcomingSessions sessions feedback mentors
   = StatsOverview.Skeletons
   ↔ isLoading upcomingSessions = true ∨ isLoading sessions = true
     ∨ isLoading feedback = true
     ∨ (user_role user = Some mentee ∧ isLoading mentors = true))
  ∧ ((∃ cards,
        StatsOverview.StatsOverview user upcomingSessions sessions feedback
          mentors = StatsOverview.Stats cards)
     ↔ isLoading upcomingSessions = false ∧ isLoading sessions = false
       ∧ isLoading feedback = false
       ∧ (user_role user = Some mentee → isLoading mentors = false)).
Proof.
  unfold StatsOverview.StatsOverview, StatsOverview.loading.
  destruct (isLoading upcomingSessions), (isLoading sessions),
    (isLoading feedback), (isLoading mentors);
    case_bool_decide; simpl; split; split;
    try (intros (c & Hc); discriminate Hc);
    intuition (eauto || congruence || discriminate).
Qed.

Lemma stats_loading_gate_witness :
  user_role (Some theMentee) = Some mentee
  ∧ StatsOverview.StatsOverview (Some theMentee)
      (loaded []) (loaded []) (loaded [])
      {| data := None; isLoading := true |}
    = StatsOverview.Skeletons.
Proof.
  split; [reflexivity|].
  apply (proj1 (stats_loading_gate (Some theMentee) (loaded []) (loaded [])
                  (loaded []) {| data := None; isLoading := true |})).
  right; right; right. split; reflexivity.
Defined.

Lemma Math_round_bounds (y : Q) :
  (y - (1 # 2) < inject_Z (StatsOverview.Math_round y)
   ∧ inject_Z (StatsOverview.Math_round y) <= y + (1 # 2))%Q.
Proof.
  unfold StatsOverview.Math_round.
  pose proof (Qfloor_le (y + (1 # 2))) as Hle.
  pose proof (Qlt_floor (y + (1 # 2))) as Hlt.
  rewrite inject_Z_plus in Hlt. change (inject_Z 1) with 1%Q in Hlt.
  split; lra.
Qed.

Lemma totalRating_foldr (l : list Feedback.t) :
  StatsOverview.totalRating l = foldr Z.add 0 (Feedback.rating <$> l).
Proof.
  unfold StatsOverview.totalRating.
  assert (H : ∀ acc, fold_left (λ sum item, sum + Feedback.rating item) l acc
                     = acc + foldr Z.add 0 (Feedback.rating <$> l)).
  { induction l as [|f l IH]; intros acc; [simpl; lia|].
    cbn [fold_left]. rewrite IH, fmap_cons. cbn [fold_right]. lia. }
  rewrite H. lia.
Qed.

Lemma avgRating_nonempty (l : list Feedback.t) :
  l ≠ [] →
  StatsOverview.avgRating (Some l)
  = Qred (inject_Z (StatsOverview.Math_round (ratingsMean l * inject_Z 10))
          / inject_Z 10)%Q.
Proof.
  intros Hne. destruct l as [|f l]; [done|].
  unfold StatsOverview.avgRating, ratingsMean.
  rewrite totalRating_foldr. reflexivity.
Qed.

Lemma avgRating_rounded (l : list Feedback.t) :
  l ≠ [] → roundedTo1Decimal (ratingsMean l) (StatsOverview.avgRating (Some l)).
Proof.
  intros Hne. rewrite (avgRating_nonempty l Hne).
  unfold roundedTo1Decimal.
  change (inject_Z 10) with 10%Q.
  destruct (Math_round_bounds (ratingsMean l * 10)) as [Hlo Hhi].
  split; [|split].
  - exists (StatsOverview.Math_round (ratingsMean l * 10)).
    apply Qred_correct.
  - rewrite Qred_correct.
    generalize dependent (inject_Z (StatsOverview.Math_round (ratingsMean l * 10))).
    intros r Hlo Hhi. change (r / 10)%Q with (r * (1 # 10))%Q. lra.
  - rewrite Qred_correct.
    generalize dependent (inject_Z (StatsOverview.Math_round (ratingsMean l * 10))).
    intros r Hlo Hhi. change (r / 10)%Q with (r * (1 # 10))%Q. lra.
Qed.

Lemma ratings_sum_ge_length (l : list Feedback.t) :
  Forall (λ f, (1 ≤ Feedback.rating f ≤ 5)%Z) l →
  (Z.of_nat (length l) ≤ foldr Z.add 0 (Feedback.rating <$> l))%Z.
Proof.
  induction 1 as [|f l Hf _ IH]; [simpl; lia|].
  rewrite fmap_cons. cbn [fold_right length]. lia.
Qed.

Lemma ratingsMean_ge_1 (l : list Feedback.t) :
  l ≠ [] → Forall (λ f, (1 ≤ Feedback.rating f ≤ 5)%Z) l →
  (1 <= ratingsMean l)%Q.
Proof.
  intros Hne Hall. unfold ratingsMean.
  assert (Hpos : (0 < Z.of_nat (length l))%Z)
    by (destruct l; [done | simpl; lia]).
  apply Qle_shift_div_l.
  - change 0%Q with (inject_Z 0). rewrite <- Zlt_Qlt. exact Hpos.
  - rewrite Qmult_1_l, <- Zle_Qle. apply ratings_sum_ge_length, Hall.
Qed.

Lemma avgRating_positive (l : list Feedback.t) :
  l ≠ [] → Forall (λ f, (1 ≤ Feedback.rating f ≤ 5)%Z) l →
  Qeq_bool (StatsOverview.avgRating (Some l)) 0 = false.
Proof.
  intros Hne Hall.
  destruct (avgRating_rounded l Hne) as (_ & Hlo & _).
  pose proof (ratingsMean_ge_1 l Hne Hall) as Hge.
  destruct (Qeq_bool (StatsOverview.avgRating (Some l)) 0) eqn:E; [|done].
  apply Qeq_bool_iff in E. rewrite E in Hlo. lra.
Qed.

Lemma avgRating_scenario (l : list Feedback.t) :
  Feedback.rating <$> l = [4; 5] →
  StatsOverview.avgRating (Some l) = (9 # 2)%Q.
Proof.
  intros H.
  assert (Hlen : length l = 2%nat)
    by (rewrite <- (length_fmap Feedback.rating), H; reflexivity).
  rewrite avgRating_nonempty by (intros ->; discriminate H).
  unfold ratingsMean. rewrite H, Hlen. reflexivity.
Qed.

(** C9: once every collection is loaded, the cards show the number of
    upcoming sessions, the number of all sessions times 1 as total hours
    and, to a mentee, the size of the mentor directory; the feedback score is
    the "No ratings" text for an empty feedback collection and otherwise the
    mean of the ratings rounded to one decimal (shown as a score whenever the
    ratings lie in 1..5). In the scenario of 3 upcoming sessions, 10
    sessions, ratings 4 and 5 and 6 mentors, a mentee sees 3, 10, 4.5
    and 6. *)
Theorem stats_values (user : option User.t) (upcoming all : list Session.t)
    (feedback : list Feedback.t) (mentors : list User.t) :
  ∃ cards,
    StatsOverview.StatsOverview user (loaded upcoming) (loaded all)
      (loaded feedback) (loaded mentors) = StatsOverview.Stats cards
    ∧ StatsOverview.upcomingSessionsValue cards = length upcoming
    ∧ StatsOverview.totalHoursValue cards = (length all * 1)%nat
    ∧ (user_role user = Some mentee →
       StatsOverview.connections cards
       = StatsOverview.ActiveMentors (length mentors))
    ∧ (feedback = [] →
       StatsOverview.feedbackScore cards = StatsOverview.NoRatings)
    ∧ (feedback ≠ [] →
       roundedTo1Decimal (ratingsMean feedback)
                         (StatsOverview.avgRating (Some feedback)))
    ∧ (feedback ≠ [] →
       Forall (λ f, (1 ≤ Feedback.rating f ≤ 5)%Z) feedback →
       StatsOverview.feedbackScore cards
       = StatsOverview.OutOfFive (StatsOverview.avgRating (Some feedback)))
    ∧ (user_role user = Some mentee →
       length upcoming = 3%nat → length all = 10%nat →
       Feedback.rating <$> feedback = [4; 5] → length mentors = 6%nat →
       StatsOverview.upcomingSessionsValue cards = 3%nat
       ∧ StatsOverview.totalHoursValue cards = 10%nat
       ∧ StatsOverview.feedbackScore cards
         = StatsOverview.OutOfFive (9 # 2)%Q
       ∧ StatsOverview.connections cards = StatsOverview.ActiveMentors 6).
Proof.
  eexists. split.
  { unfold StatsOverview.StatsOverview, StatsOverview.loading, loaded.
    cbn [isLoading data orb]. rewrite andb_false_r. reflexivity. }
  cbn [StatsOverview.upcomingSessionsValue StatsOverview.totalHoursValue
       StatsOverview.connections StatsOverview.feedbackScore].
  unfold StatsOverview.upcomingSessionsCount, StatsOverview.totalHours,
    StatsOverview.activeMentorsCount.
  split; [reflexivity|]. split; [reflexivity|]. split; [|split; [|split; [|split]]].
  - intros Hr. rewrite bool_decide_eq_true_2 by exact Hr. reflexivity.
  - intros ->. reflexivity.
  - apply avgRating_rounded.
  - intros Hne Hall. rewrite (avgRating_positive _ Hne Hall). reflexivity.
  - intros Hr Hu Ha Hf Hm. rewrite Hu, Ha, Hm.
    rewrite bool_decide_eq_true_2 by exact Hr.
    rewrite (avgRating_scenario _ Hf). repeat split; reflexivity.
Qed.

Lemma stats_values_witness :
  user_role (Some theMentee) = Some mentee
  ∧ length scenarioUpcoming = 3%nat ∧ length scenarioSessions = 10%nat
  ∧ Feedback.rating <$> scenarioFeedback = [4; 5]
  ∧ length scenarioMentors = 6%nat
  ∧ ∃ cards,
      StatsOverview.StatsOverview (Some theMentee) (loaded scenarioUpcoming)
        (loaded scenarioSessions) (loaded scenarioFeedback)
        (loaded scenarioMentors) = StatsOverview.Stats cards
      ∧ StatsOverview.upcomingSessionsValue cards = 3%nat
      ∧ StatsOverview.totalHoursValue cards = 10%nat
      ∧ StatsOverview.feedbackScore cards = StatsOverview.OutOfFive (9 # 2)%Q
      ∧ StatsOverview.connections cards = StatsOverview.ActiveMentors 6.
Proof.
  repeat (split; [reflexivity|]).
  destruct (stats_values (Some theMentee) scenarioUpcoming scenarioSessions
              scenarioFeedback scenarioMentors)
    as (cards & Hview & _ & _ & _ & _ & _ & _ & Hscenario).
  exists cards. split; [exact Hview|].
  apply Hscenario; reflexivity.
Defined.

(** ** Recommended mentors *)

(** C10: for a fetched directory the recommended list holds mentors only,
    at most 4 of them, namely the first 4 mentors of the directory in the
    directory's order (all of them when there are fewer); an entry of the
    directory whose role is not mentor is never recommended, and this list is
    the one the card renders for a mentee. *)
Theorem recommendedMentors_first_four (directory : list User.t) :
  ∃ recommended,
    RecommendedMentors.recommendedMentors (Some directory) = Some recommended
    ∧ Forall (λ u, User.role u = mentor) recommended
    ∧ (length recommended ≤ 4)%nat
    ∧ recommended `prefix_of` filter (λ u, User.role u = mentor) directory
    ∧ length recommended
      = (4 `min` length (filter (λ u, User.role u = mentor) directory))%nat
    ∧ recommended `sublist_of` directory
    ∧ (∀ u, u ∈ directory → User.role u ≠ mentor → u ∉ recommended)
    ∧ (∀ user, user_role user = Some mentee →
         RecommendedMentors.RecommendedMentors user (loaded directory)
         = RecommendedMentors.Panel (length directory) recommended).
Proof.
  exists (take 4 (filter (λ u, User.role u = mentor) directory)).
  assert (Hall : Forall (λ u, User.role u = mentor)
                   (take 4 (filter (λ u, User.role u = mentor) directory))).
  { apply Forall_take, Forall_forall. intros u Hu.
    apply list_elem_of_filter in Hu as [Hu _]. exact Hu. }
  split; [reflexivity|]. split; [exact Hall|]. split; [|split; [|split; [|split; [|split]]]].
  - rewrite length_take. lia.
  - apply prefix_take.
  - apply length_take.
  - etrans; [apply sublist_take | apply sublist_filter; apply _].
  - intros u _ Hrole Hin. rewrite Forall_forall in Hall.
    exact (Hrole (Hall u Hin)).
  - intros user Hr. unfold RecommendedMentors.RecommendedMentors. simpl.
    rewrite bool_decide_eq_false_2 by (intros H; exact (H Hr)).
    reflexivity.
Qed.

Lemma recommendedMentors_first_four_witness :
  theMentee ∈ sampleDirectory
  ∧ User.role theMentee ≠ mentor
  ∧ ∃ recommended,
      RecommendedMentors.recommendedMentors (Some sampleDirectory)
      = Some recommended
      ∧ length recommended = 4%nat
      ∧ theMentee ∉ recommended.
Proof.
  assert (H1 : theMentee ∈ sampleDirectory)
    by (apply elem_of_cons; right; apply elem_of_cons; left; reflexivity).
  assert (H2 : User.role theMentee ≠ mentor) by (simpl; discriminate).
  destruct (recommendedMentors_first_four sampleDirectory)
    as (r & Hr & _ & _ & _ & Hlen & _ & Hnot & _).
  split; [exact H1|]. split; [exact H2|].
  exists r. split; [exact Hr|]. split; [exact Hlen|exact (Hnot _ H1 H2)].
Defined.

(** * Further properties of the components *)

(** ** White space and the meeting link *)

Lemma removeWhiteSpace_noWhiteSpace (s : string) :
  JsString.noWhiteSpace (JsString.removeWhiteSpace s) = true.
Proof.
  induction s as [|c t IH]; simpl; [reflexivity|].
  destruct (JsString.isWhiteSpace c) eqn:E; simpl; [exact IH|].
  rewrite E, IH. reflexivity.
Qed.

Lemma removeWhiteSpace_id (s : string) :
  JsString.noWhiteSpace s = true → JsString.removeWhiteSpace s = s.
Proof.
  induction s as [|c t IH]; simpl; [reflexivity|].
  intros H. apply andb_true_iff in H as [Hc Ht].
  apply negb_true_iff in Hc. rewrite Hc, IH by exact Ht. reflexivity.
Qed.

Lemma removeWhiteSpace_app (a b : string) :
  JsString.removeWhiteSpace (a +:+ b)
  = JsString.removeWhiteSpace a +:+ JsString.removeWhiteSpace b.
Proof.
  induction a as [|c t IH]; simpl; [reflexivity|].
  destruct (JsString.isWhiteSpace c); simpl; rewrite IH; reflexivity.
Qed.

Lemma trimEnd_id (s : string) :
  JsString.noWhiteSpace s = true → JsString.trimEnd s = s.
Proof.
  induction s as [|c t IH]; simpl; [reflexivity|].
  intros H. apply andb_true_iff in H as [Hc Ht].
  apply negb_true_iff in Hc. rewrite IH by exact Ht.
  destruct t; [rewrite Hc|]; reflexivity.
Qed.

Lemma trim_id (s : string) :
  JsString.noWhiteSpace s = true → JsString.trim s = s.
Proof.
  intros H. unfold JsString.trim.
  assert (Hs : JsString.trimStart s = s).
  { destruct s as [|c t]; simpl; [reflexivity|].
    simpl in H. apply andb_true_iff in H as [Hc _].
    apply negb_true_iff in Hc. rewrite Hc. reflexivity. }
  rewrite Hs. apply trimEnd_id, H.
Qed.

(** A string made of white space only is trimmed to nothing. *)
Lemma trim_blank (s : string) :
  JsString.removeWhiteSpace s = "" → JsString.trim s = "".
Proof.
  intros H. unfold JsString.trim.
  assert (Hs : JsString.trimStart s = "").
  { revert H. induction s as [|c t IH]; simpl; [reflexivity|].
    destruct (JsString.isWhiteSpace c); [exact IH|intros H; discriminate H]. }
  rewrite Hs. reflexivity.
Qed.

Lemma startsWith_split (s p : string) :
  JsString.startsWith s p = true → ∃ r, s = p +:+ r.
Proof.
  unfold JsString.startsWith. revert s.
  induction p as [|c p IH]; intros s; simpl.
  - intros _. exists s. reflexivity.
  - destruct s as [|d s]; simpl; [intros H; discriminate H|].
    destruct (Ascii.ascii_dec c d) as [->|]; [|intros H; discriminate H].
    intros H. destruct (IH s H) as [r ->]. exists r. reflexivity.
Qed.

Lemma startsWith_app (p r : string) : JsString.startsWith (p +:+ r) p = true.
Proof.
  unfold JsString.startsWith. induction p as [|c p IH]; simpl.
  - destruct r; reflexivity.
  - destruct (Ascii.ascii_dec c c) as [_|Hn]; [exact IH|done].
Qed.

Lemma meetingUrl_startsWith_http (link : string) :
  JsString.startsWith (SessionCard.meetingUrl link) "http" = true.
Proof.
  unfold SessionCard.meetingUrl.
  destruct (JsString.startsWith (JsString.trim link) "http") eqn:E; simpl.
  - destruct (startsWith_split _ _ E) as [r ->].
    rewrite removeWhiteSpace_app.
    change (JsString.removeWhiteSpace "http") with "http".
    apply startsWith_app.
  - destruct (JsString.includes (JsString.trim link) "meet.google.com");
      rewrite removeWhiteSpace_app.
    + exact (startsWith_app "http" ("s://" +:+ _)).
    + exact (startsWith_app "http" ("s://meet.google.com/" +:+ _)).
Qed.

(** X1: joining a session whose meeting link is missing or empty only shows
    the destructive "No meeting link available" notification; with any other
    link the handler logs the raw link, opens exactly one window, in a new
    tab, on a URL that starts with "http" and holds no white space, and then
    shows "Joining meeting". *)
Theorem handleJoinSession_outcomes (session : Session.t) :
  ((Session.meetingLink session = None ∨ Session.meetingLink session = Some "")
   ∧ SessionCard.handleJoinSession session
     = [SessionCard.JoinToast SessionCard.noMeetingLink]
   ∧ toast_variant SessionCard.noMeetingLink = Some "destructive")
  ∨ (∃ link url,
       Session.meetingLink session = Some link ∧ link ≠ ""
       ∧ SessionCard.handleJoinSession session
         = [ SessionCard.ConsoleLog "Attempting to join meeting with link:" link;
             SessionCard.WindowOpen url "_blank";
             SessionCard.JoinToast SessionCard.joiningMeeting ]
       ∧ JsString.startsWith url "http" = true
       ∧ JsString.noWhiteSpace url = true).
Proof.
  unfold SessionCard.handleJoinSession.
  destruct (Session.meetingLink session) as [[|c t]|].
  - left. auto.
  - right. exists (String c t), (SessionCard.meetingUrl (String c t)).
    split; [reflexivity|]. split; [discriminate|]. split; [reflexivity|].
    split; [apply meetingUrl_startsWith_http|].
    apply removeWhiteSpace_noWhiteSpace.
  - left. auto.
Qed.

(** X2: formatting a meeting link is idempotent: the URL the card opens is
    left as it is when it is formatted again. *)
Theorem meetingUrl_idempotent (link : string) :
  SessionCard.meetingUrl (SessionCard.meetingUrl link)
  = SessionCard.meetingUrl link.
Proof.
  pose proof (meetingUrl_startsWith_http link) as Hhttp.
  assert (Hws : JsString.noWhiteSpace (SessionCard.meetingUrl link) = true)
    by apply removeWhiteSpace_noWhiteSpace.
  revert Hhttp Hws. generalize (SessionCard.meetingUrl link) as url.
  intros url Hhttp Hws. unfold SessionCard.meetingUrl.
  rewrite (trim_id url Hws), Hhttp. simpl.
  apply removeWhiteSpace_id, Hws.
Qed.

(** X3: a link without white space is opened unchanged when it starts with
    "http"; otherwise it only gets a prefix: "https://" when it names
    meet.google.com, "https://meet.google.com/" when it is a bare meeting
    code. *)
Theorem meetingUrl_without_white_space (link : string) :
  JsString.noWhiteSpace link = true →
  SessionCard.meetingUrl link
  = if JsString.startsWith link "http" then link
    else if JsString.includes link "meet.google.com"
         then "https://" +:+ link
         else "https://meet.google.com/" +:+ link.
Proof.
  intros Hws. unfold SessionCard.meetingUrl. rewrite (trim_id link Hws).
  destruct (JsString.startsWith link "http"); simpl.
  - apply removeWhiteSpace_id, Hws.
  - destruct (JsString.includes link "meet.google.com");
      rewrite removeWhiteSpace_app, (removeWhiteSpace_id link Hws);
      reflexivity.
Qed.

Lemma meetingUrl_without_white_space_witness :
  JsString.noWhiteSpace "abc-defg-hij" = true
  ∧ SessionCard.meetingUrl "abc-defg-hij"
    = "https://meet.google.com/abc-defg-hij".
Proof.
  split; [reflexivity|].
  exact (meetingUrl_without_white_space "abc-defg-hij" eq_refl).
Defined.

(** X4: a link made of white space only is not taken for a missing link:
    the card opens the bare address "https://meet.google.com/". *)
Theorem handleJoinSession_blank_link (session : Session.t) (link : string) :
  Session.meetingLink session = Some link →
  link ≠ "" →
  JsString.removeWhiteSpace link = "" →
  SessionCard.handleJoinSession session
  = [ SessionCard.ConsoleLog "Attempting to join meeting with link:" link;
      SessionCard.WindowOpen "https://meet.google.com/" "_blank";
      SessionCard.JoinToast SessionCard.joiningMeeting ].
Proof.
  intros Hlink Hne Hblank. unfold SessionCard.handleJoinSession.
  rewrite Hlink. destruct link as [|c t]; [done|].
  unfold SessionCard.meetingUrl. rewrite (trim_blank _ Hblank). reflexivity.
Qed.

Lemma handleJoinSession_blank_link_witness :
  Session.meetingLink (session7WithLink (Some " ")) = Some " "
  ∧ " " ≠ ""
  ∧ JsString.removeWhiteSpace " " = ""
  ∧ SessionCard.handleJoinSession (session7WithLink (Some " "))
    = [ SessionCard.ConsoleLog "Attempting to join meeting with link:" " ";
        SessionCard.WindowOpen "https://meet.google.com/" "_blank";
        SessionCard.JoinToast SessionCard.joiningMeeting ].
Proof.
  assert (Hne : " " ≠ "") by discriminate.
  split; [reflexivity|]. split; [exact Hne|]. split; [reflexivity|].
  exact (handleJoinSession_blank_link (session7WithLink (Some " ")) " "
           eq_refl Hne eq_refl).
Defined.

(** ** The session card's queries *)

(** X5: the card asks for the other participant's profile only when the
    viewer owns the session and the other participant's id is not 0; the id
    it asks for is one of the session's two ids and, for an owner of a
    session with two distinct participants, not the viewer's own. Without an
    authenticated user it never asks. *)
Theorem participantQuery_only_for_owner (v : User.t) (s : Session.t) :
  (SessionCard.participantQueryEnabled (Some v) s = true
   ↔ isOwner v s ∧ SessionCard.participantId (Some v) s ≠ 0)
  ∧ (SessionCard.participantId (Some v) s = Session.mentorId s
     ∨ SessionCard.participantId (Some v) s = Session.menteeId s)
  ∧ (isOwner v s → Session.mentorId s ≠ Session.menteeId s →
     SessionCard.participantId (Some v) s ≠ User.id v)
  ∧ SessionCard.participantQueryEnabled None s = false.
Proof.
  split; [|split; [|split]].
  - unfold SessionCard.participantQueryEnabled.
    rewrite andb_true_iff, bool_decide_eq_true, isOwnSession_isOwner. tauto.
  - unfold SessionCard.participantId, SessionCard.isMentor.
    case_bool_decide; auto.
  - unfold SessionCard.participantId, SessionCard.isMentor, user_role, isOwner.
    simpl. destruct (User.role v); simpl;
      intros [[Hr Hi]|[Hr Hi]] Hne; try discriminate Hr; congruence.
  - unfold SessionCard.participantQueryEnabled.
    rewrite isOwnSession_anonymous. apply andb_false_r.
Qed.

Lemma participantQuery_only_for_owner_witness :
  isOwner theMentee (session7 pending)
  ∧ Session.mentorId (session7 pending) ≠ Session.menteeId (session7 pending)
  ∧ SessionCard.participantId (Some theMentee) (session7 pending)
    ≠ User.id theMentee.
Proof.
  assert (H1 : isOwner theMentee (session7 pending))
    by (right; split; reflexivity).
  assert (H2 : Session.mentorId (session7 pending)
               ≠ Session.menteeId (session7 pending))
    by (simpl; discriminate).
  split; [exact H1|]. split; [exact H2|].
  exact (proj1 (proj2 (proj2 (participantQuery_only_for_owner theMentee
                                (session7 pending)))) H1 H2).
Defined.

(** X6: whether feedback was already left is read off the feedback-given
    data alone. It is false while that data is missing and for a viewer who
    is not authenticated; over a list it is true exactly when some part of
    the list holds a matching entry, and entries of other sessions are
    ignored. *)
Theorem hasLeftFeedback_reads_snapshot (user : option User.t) (s : Session.t)
    (F1 F2 : list Feedback.t) :
  SessionCard.hasLeftFeedback user s None = false
  ∧ SessionCard.hasLeftFeedback None s (Some F1) = false
  ∧ SessionCard.hasLeftFeedback user s (Some (F1 ++ F2))
    = SessionCard.hasLeftFeedback user s (Some F1)
      || SessionCard.hasLeftFeedback user s (Some F2)
  ∧ SessionCard.hasLeftFeedback user s
      (Some (filter (λ f, Feedback.sessionId f = Session.id s) F1))
    = SessionCard.hasLeftFeedback user s (Some F1).
Proof.
  split; [reflexivity|]. split; [|split].
  - unfold SessionCard.hasLeftFeedback, user_id; simpl.
    induction F1 as [|f F IH]; simpl; [reflexivity|].
    rewrite IH, andb_false_r. reflexivity.
  - unfold SessionCard.hasLeftFeedback. apply existsb_app.
  - unfold SessionCard.hasLeftFeedback.
    induction F1 as [|f F IH]; [reflexivity|].
    rewrite filter_cons. cbn [existsb]. case_decide as Hf.
    + cbn [existsb]. rewrite IH. reflexivity.
    + rewrite IH. rewrite (bool_decide_eq_false_2 _ Hf). reflexivity.
Qed.

(** ** Notifications and card state after a mutation *)

(** X7: each of the four mutations reports its outcome by exactly one
    notification: a success by a notification that is not destructive, a
    failure by a destructive one that carries the server's message under the
    mutation's own failure title. *)
Theorem mutations_report_outcome_once :
  (∀ user, reportsOutcomeOnce (SessionCard.updateSessionMutation user)
                              "Failed to update session")
  ∧ reportsOutcomeOnce SessionCard.submitFeedbackMutation
                       "Failed to submit feedback"
  ∧ reportsOutcomeOnce SkillsProgress.addSkillMutation "Failed to add skill"
  ∧ reportsOutcomeOnce SkillsProgress.updateSkillMutation
                       "Failed to update skill".
Proof.
  split; [|split; [|split]].
  - intros user [id st] w. split.
    + destruct st; eexists; simpl; rewrite !toasts_app; simpl;
        rewrite !app_nil_r; split; reflexivity.
    + intros message. simpl. rewrite !toasts_app. simpl.
      rewrite !app_nil_r. reflexivity.
  - intros fd w. split.
    + eexists. simpl. rewrite !toasts_app. simpl. rewrite !app_nil_r.
      split; reflexivity.
    + intros message. simpl. rewrite !toasts_app. simpl.
      rewrite !app_nil_r. reflexivity.
  - intros values w. split.
    + eexists. simpl. rewrite !toasts_app. simpl. rewrite !app_nil_r.
      split; reflexivity.
    + intros message. simpl. rewrite !toasts_app. simpl.
      rewrite !app_nil_r. reflexivity.
  - intros vars w. split.
    + eexists. simpl. rewrite !toasts_app. simpl. rewrite !app_nil_r.
      split; reflexivity.
    + intros message. simpl. rewrite !toasts_app. simpl.
      rewrite !app_nil_r. reflexivity.
Qed.

(** X8: a feedback submission that the server accepts closes the feedback
    dialog and keeps the rating and the comment; one that the server refuses
    leaves the card's state as it was, so the dialog stays as it is for
    another try. Cancelling a session never touches the card's state. *)
Theorem sessionCard_state_after_mutation (v : User.t) (user : option User.t)
    (s : Session.t) (w : World SessionCard.State) :
  (∃ w', SessionCard.submitFeedback (Some v) s Resolved w = Some w'
         ∧ SessionCard.showFeedbackModal (ui w') = false
         ∧ SessionCard.rating (ui w') = SessionCard.rating (ui w)
         ∧ SessionCard.comment (ui w') = SessionCard.comment (ui w))
  ∧ (∀ message, ∃ w',
       SessionCard.submitFeedback (Some v) s (Rejected message) w = Some w'
       ∧ ui w' = ui w)
  ∧ (∀ message,
       ui (SessionCard.handleCancel user s (Rejected message) w) = ui w)
  ∧ ui (SessionCard.handleCancel user s Resolved w) = ui w.
Proof.
  split; [|split; [|split]].
  - eexists. split; [reflexivity|]. simpl. auto.
  - intros message. eexists. split; reflexivity.
  - intros message. unfold SessionCard.handleCancel.
    destruct (_ && _); reflexivity.
  - unfold SessionCard.handleCancel.
    destruct (_ && _); [reflexivity|].
    simpl. repeat case_bool_decide; reflexivity.
Qed.

(** X9: a new skill that the server accepts closes the add-skill dialog and
    resets the form to its default values (empty name, progress 0); one that
    the server refuses leaves the dialog open with the card's state
    unchanged. A progress update never touches the card's state. *)
Theorem skillsProgress_state_after_mutation (values : SkillFormValues)
    (id : Z) (progress : list Z) (resp : Response)
    (w : World SkillsProgress.State) :
  ui (SkillsProgress.onSubmit values Resolved w)
  = {| SkillsProgress.isAddingSkill := false;
       SkillsProgress.form := {| form_name := ""; form_progress := 0 |} |}
  ∧ (∀ message, ui (SkillsProgress.onSubmit values (Rejected message) w) = ui w)
  ∧ ui (SkillsProgress.handleProgressChange id progress resp w) = ui w.
Proof.
  split; [reflexivity|]. split; [reflexivity|].
  destruct resp; reflexivity.
Qed.

(** ** Who can cancel *)

Lemma handleCancel_participant_requests (v : User.t) (s : Session.t)
    (resp : Response) (w : World SessionCard.State) :
  isParticipant v s →
  requests (trace (SessionCard.handleCancel (Some v) s resp w))
  = requests (trace w)
    ++ [ {| method := "PUT";
            url := "/api/sessions/" +:+ pretty (Session.id s);
            body := StatusBody canceled |} ].
Proof.
  intros Hp. unfold SessionCard.handleCancel, user_id. simpl.
  assert (Hguard : bool_decide (Some (Session.mentorId s) ≠ Some (User.id v))
                   && bool_decide (Some (Session.menteeId s) ≠ Some (User.id v))
                   = false).
  { apply andb_false_iff. destruct Hp as [H|H]; [left|right];
      apply bool_decide_eq_false; intros Hn; apply Hn; congruence. }
  rewrite Hguard.
  destruct resp; simpl; rewrite !requests_app; simpl;
    rewrite !app_nil_r; reflexivity.
Qed.

(** X10: [handleCancel] looks at ids only. Whenever the viewer's id is the
    session's mentor id or mentee id, whatever the viewer's role and the
    session's status, it dispatches one PUT to the session's resource that
    asks for the status canceled. When the server accepts, the three session
    keys are invalidated and the plain "Session canceled" notification
    follows; when it refuses, only the failure notification follows. *)
Theorem handleCancel_participant_dispatches (v : User.t) (s : Session.t)
    (resp : Response) (w : World SessionCard.State) :
  isParticipant v s →
  let put := {| method := "PUT";
                url := "/api/sessions/" +:+ pretty (Session.id s);
                body := StatusBody canceled |} in
  requests (trace (SessionCard.handleCancel (Some v) s resp w))
  = requests (trace w) ++ [put]
  ∧ trace (SessionCard.handleCancel (Some v) s Resolved w)
    = trace w
      ++ [ ApiRequest put;
           InvalidateQueries ["/api/sessions"];
           InvalidateQueries ["/api/sessions/upcoming"];
           InvalidateQueries ["/api/activities"];
           ShowToast {| toast_title := "Session canceled";
                        toast_description :=
                          "The session has been canceled successfully.";
                        toast_variant := None |} ]
  ∧ (∀ message,
       trace (SessionCard.handleCancel (Some v) s (Rejected message) w)
       = trace w
         ++ [ ApiRequest put;
              ShowToast {| toast_title := "Failed to update session";
                           toast_description := message;
                           toast_variant := Some "destructive" |} ]).
Proof.
  intros Hp put. split; [apply handleCancel_participant_requests, Hp|].
  unfold SessionCard.handleCancel, user_id. simpl.
  assert (Hguard : bool_decide (Some (Session.mentorId s) ≠ Some (User.id v))
                   && bool_decide (Some (Session.menteeId s) ≠ Some (User.id v))
                   = false).
  { apply andb_false_iff. destruct Hp as [H|H]; [left|right];
      apply bool_decide_eq_false; intros Hn; apply Hn; congruence. }
  rewrite Hguard. split.
  - simpl. rewrite <- !app_assoc. reflexivity.
  - intros message. simpl. rewrite <- !app_assoc. reflexivity.
Qed.

Lemma handleCancel_participant_dispatches_witness :
  isParticipant (User.mk 1 mentee "Ada" "Byron" None None None)
                (session7 completed)
  ∧ SessionCard.isOwnSession
      (Some (User.mk 1 mentee "Ada" "Byron" None None None))
      (session7 completed) = false
  ∧ requests (trace (SessionCard.handleCancel
                       (Some (User.mk 1 mentee "Ada" "Byron" None None None))
                       (session7 completed) Resolved freshCard))
    = requests (trace freshCard)
      ++ [ {| method := "PUT"; url := "/api/sessions/7";
              body := StatusBody canceled |} ].
Proof.
  assert (H : isParticipant (User.mk 1 mentee "Ada" "Byron" None None None)
                            (session7 completed)) by (left; reflexivity).
  split; [exact H|]. split; [reflexivity|].
  exact (proj1 (handleCancel_participant_dispatches _ (session7 completed)
                  Resolved freshCard H)).
Defined.

(** X11: without an authenticated user the card owns nothing: no session is
    the viewer's own, no full name is shown (the label is "Mentor"), neither
    the profile nor the feedback-given query is enabled, a cancel attempt
    only shows "Permission Denied", the only cancel button there can be is
    the one of an approved session, and submitting feedback throws before it
    has any effect. *)
Theorem anonymous_viewer (s : Session.t) (participant : option User.t)
    (resp : Response) (w : World SessionCard.State) :
  SessionCard.isOwnSession None s = false
  ∧ SessionCard.shouldShowFullName None s = false
  ∧ SessionCard.participantName None s participant = "Mentor"
  ∧ SessionCard.participantQueryEnabled None s = false
  ∧ SessionCard.feedbackGivenEnabled None s = false
  ∧ trace (SessionCard.handleCancel None s resp w)
    = trace w ++ [ShowToast SessionCard.permissionDenied]
  ∧ (SessionCard.Cancel ∈ SessionCard.actionButtons None s
     ↔ Session.status s = approved)
  ∧ SessionCard.submitFeedback None s resp w = None.
Proof.
  split; [reflexivity|]. split; [reflexivity|]. split; [reflexivity|].
  split; [apply andb_false_r|]. split; [apply andb_false_r|].
  split; [reflexivity|]. split; [|reflexivity].
  rewrite cancel_offered_iff. simpl. split; [|auto].
  intros [H|[[H|H] _]]; [exact H|discriminate H|discriminate H].
Qed.

(** X12: how many cancel buttons the card renders. A viewer whose id is the
    mentor's or the mentee's sees two on an approved session and one on a
    pending one; any other viewer sees one on an approved session and none
    on a pending one; nobody sees one on a completed, canceled or rejected
    session. The join button is rendered exactly for approved sessions, to
    every viewer. *)
Theorem cancel_button_count (user : option User.t) (s : Session.t) :
  let isPart := Some (Session.mentorId s) = user_id user
                ∨ Some (Session.menteeId s) = user_id user in
  let cancels := length (filter (λ b, b = SessionCard.Cancel)
                                (SessionCard.actionButtons user s)) in
  (Session.status s = approved → isPart → cancels = 2%nat)
  ∧ (Session.status s = approved → ¬ isPart → cancels = 1%nat)
  ∧ (Session.status s = pending → isPart → cancels = 1%nat)
  ∧ (Session.status s = pending → ¬ isPart → cancels = 0%nat)
  ∧ (terminal (Session.status s) → cancels = 0%nat)
  ∧ (SessionCard.JoinSession ∈ SessionCard.actionButtons user s
     ↔ Session.status s = approved).
Proof.
  unfold SessionCard.actionButtons, terminal.
  destruct (Session.status s); simpl;
    repeat case_bool_decide; simpl;
    rewrite ?elem_of_cons, ?elem_of_nil;
    repeat split; intros; try reflexivity; try discriminate;
    intuition (congruence || discriminate).
Qed.

Lemma cancel_button_count_witness :
  Session.status (session7 approved) = approved
  ∧ (Some (Session.mentorId (session7 approved)) = user_id (Some theMentee)
     ∨ Some (Session.menteeId (session7 approved)) = user_id (Some theMentee))
  ∧ length (filter (λ b, b = SessionCard.Cancel)
              (SessionCard.actionButtons (Some theMentee) (session7 approved)))
    = 2%nat.
Proof.
  assert (H : Some (Session.mentorId (session7 approved))
              = user_id (Some theMentee)
              ∨ Some (Session.menteeId (session7 approved))
                = user_id (Some theMentee)) by (right; reflexivity).
  split; [reflexivity|]. split; [exact H|].
  exact (proj1 (cancel_button_count (Some theMentee) (session7 approved))
               eq_refl H).
Defined.

(** X13: a click on a cancel button reaches the server exactly when the
    viewer's id is the mentor's or the mentee's and the session is pending
    or approved; in particular the cancel button an approved session shows
    to everybody else only produces "Permission Denied". *)
Theorem clickCancel_dispatches_iff (v : User.t) (s : Session.t)
    (resp : Response) (w : World SessionCard.State) :
  ((∃ w', SessionCard.clickCancel (Some v) s resp w = Some w'
          ∧ requests (trace w') ≠ requests (trace w))
   ↔ isParticipant v s
     ∧ (Session.status s = pending ∨ Session.status s = approved))
  ∧ (¬ isParticipant v s → Session.status s = approved →
     ∃ w', SessionCard.clickCancel (Some v) s resp w = Some w'
           ∧ trace w' = trace w ++ [ShowToast SessionCard.permissionDenied]).
Proof.
  assert (Hnp : ¬ isParticipant v s →
                SessionCard.handleCancel (Some v) s resp w
                = toast SessionCard.permissionDenied w).
  { intros Hn. unfold SessionCard.handleCancel, user_id. simpl.
    rewrite !bool_decide_eq_true_2; [reflexivity| |];
      intros E; apply Hn; [right|left]; congruence. }
  split.
  - split.
    + intros (w' & Hc & Hreq). unfold SessionCard.clickCancel in Hc.
      case_bool_decide as Hoff; [|discriminate Hc]. injection Hc as <-.
      split.
      * assert (Hdec : isParticipant v s ∨ ¬ isParticipant v s)
          by (unfold isParticipant; lia).
        destruct Hdec as [Hp|Hn]; [exact Hp|].
        exfalso. apply Hreq. rewrite (Hnp Hn). simpl.
        rewrite requests_app. simpl. apply app_nil_r.
      * apply cancel_offered_iff in Hoff. unfold terminal in Hoff.
        destruct (Session.status s); intuition (congruence || discriminate).
    + intros [Hp Hst].
      exists (SessionCard.handleCancel (Some v) s resp w). split.
      * unfold SessionCard.clickCancel. rewrite bool_decide_eq_true_2;
          [reflexivity|]. apply cancel_offered_iff.
        destruct Hst as [E|E]; [right|left; exact E].
        split; [unfold user_id; simpl; destruct Hp; [left|right]; congruence|].
        rewrite E. intros [H|[H|H]]; discriminate H.
      * rewrite (handleCancel_participant_requests v s resp w Hp).
        intros E. apply (f_equal length) in E.
        rewrite length_app in E. simpl in E. lia.
  - intros Hn Hst. exists (SessionCard.handleCancel (Some v) s resp w).
    split.
    + unfold SessionCard.clickCancel. rewrite bool_decide_eq_true_2;
        [reflexivity|]. apply cancel_offered_iff. left. exact Hst.
    + rewrite (Hnp Hn). reflexivity.
Qed.

Lemma clickCancel_dispatches_iff_witness :
  ¬ isParticipant outsider (session7 approved)
  ∧ Session.status (session7 approved) = approved
  ∧ ∃ w', SessionCard.clickCancel (Some outsider) (session7 approved)
            Resolved freshCard = Some w'
          ∧ trace w' = trace freshCard
                       ++ [ShowToast SessionCard.permissionDenied].
Proof.
  assert (H : ¬ isParticipant outsider (session7 approved))
    by (intros [H|H]; vm_compute in H; discriminate H).
  split; [exact H|]. split; [reflexivity|].
  exact (proj2 (clickCancel_dispatches_iff outsider (session7 approved)
                  Resolved freshCard) H eq_refl).
Defined.

(** ** Status styling *)

(** X14: each of the four status styles (badge, gradient, shadow, border)
    tells pending, approved and completed sessions apart from each other and
    from closed ones, and gives canceled and rejected sessions the same
    look: two sessions get the same style exactly when they have the same
    status or are both canceled or rejected. *)
Theorem status_styles_distinguish (s1 s2 : Session.t) :
  let same := Session.status s1 = Session.status s2
              ∨ (styledAsClosed (Session.status s1)
                 ∧ styledAsClosed (Session.status s2)) in
  (SessionCard.getStatusBadgeStyle s1 = SessionCard.getStatusBadgeStyle s2
   ↔ same)
  ∧ (SessionCard.getGradientBackground s1 = SessionCard.getGradientBackground s2
     ↔ same)
  ∧ (SessionCard.getShadowStyle s1 = SessionCard.getShadowStyle s2 ↔ same)
  ∧ (SessionCard.getBorderStyle s1 = SessionCard.getBorderStyle s2 ↔ same).
Proof.
  unfold SessionCard.getStatusBadgeStyle, SessionCard.getGradientBackground,
    SessionCard.getShadowStyle, SessionCard.getBorderStyle, styledAsClosed.
  destruct (Session.status s1), (Session.status s2);
    repeat split; intros H;
    try discriminate H;
    try reflexivity;
    try (left; reflexivity);
    try (right; split; auto; fail);
    destruct H as [H|[[H|H] [H'|H']]]; discriminate.
Qed.

(** ** The skills-progress card *)

(** X15: the colour of a skill's bar is decided by five bands of the
    progress value: accent from 80 up, secondary from 60 to 79, primary from
    40 to 59, purple from 20 to 39 and red below 20. Values outside 0..100
    are not rejected: a negative progress is red, one above 100 accent. *)
Theorem getColorClass_bands (progress : Z) :
  (SkillsProgress.getColorClass progress = "bg-accent" ↔ (80 ≤ progress)%Z)
  ∧ (SkillsProgress.getColorClass progress = "bg-secondary"
     ↔ (60 ≤ progress < 80)%Z)
  ∧ (SkillsProgress.getColorClass progress = "bg-primary"
     ↔ (40 ≤ progress < 60)%Z)
  ∧ (SkillsProgress.getColorClass progress = "bg-purple-500"
     ↔ (20 ≤ progress < 40)%Z)
  ∧ (SkillsProgress.getColorClass progress = "bg-red-500"
     ↔ (progress < 20)%Z).
Proof.
  unfold SkillsProgress.getColorClass.
  destruct (Z.leb_spec 80 progress); [|destruct (Z.leb_spec 60 progress);
    [|destruct (Z.leb_spec 40 progress); [|destruct (Z.leb_spec 20 progress)]]];
    split_and!; (split; intros H'); try lia; try discriminate H'; reflexivity.
Qed.

(** X16: a change of a skill's slider always dispatches one PUT to the
    skill's resource with the first value of the slider's array as the new
    progress; the values after the first play no part, and an empty array is
    not guarded against: the request then goes out without a progress. *)
Theorem handleProgressChange_first_value (id : Z) (progress : list Z)
    (resp : Response) (w : World SkillsProgress.State) :
  requests (trace (SkillsProgress.handleProgressChange id progress resp w))
  = requests (trace w)
    ++ [ {| method := "PUT";
            url := "/api/skills/" +:+ pretty id;
            body := ProgressBody (head progress) |} ]
  ∧ (∀ p rest,
       SkillsProgress.handleProgressChange id (p :: rest) resp w
       = SkillsProgress.handleProgressChange id [p] resp w)
  ∧ requests (trace (SkillsProgress.handleProgressChange id [] resp w))
    = requests (trace w)
      ++ [ {| method := "PUT";
              url := "/api/skills/" +:+ pretty id;
              body := ProgressBody None |} ].
Proof.
  assert (H : ∀ l,
    requests (trace (SkillsProgress.handleProgressChange id l resp w))
    = requests (trace w)
      ++ [ {| method := "PUT";
              url := "/api/skills/" +:+ pretty id;
              body := ProgressBody (head l) |} ]).
  { intros l. destruct resp; simpl; rewrite !requests_app; simpl;
      rewrite !app_nil_r; reflexivity. }
  split; [apply H|]. split; [reflexivity|apply (H [])].
Qed.

(** X17: the skills card renders nothing for a viewer who is not a mentee,
    even while the skills are loading; for a mentee it renders skeletons
    while loading, the "no skills yet" text when the skills are missing or
    empty, and otherwise one row per skill, in order, with the skill's name
    and the colour of its progress band. The add-skill dialog is open
    exactly when the card's cell says so. *)
Theorem skillsProgress_view (user : option User.t)
    (skills : option (list Skill.t)) (isLoading : bool)
    (st : SkillsProgress.State) :
  (user_role user ≠ Some mentee →
   SkillsProgress.SkillsProgress user skills isLoading st
   = SkillsProgress.Nothing)
  ∧ (user_role user = Some mentee → isLoading = true →
     SkillsProgress.SkillsProgress user skills isLoading st
     = SkillsProgress.Skeletons)
  ∧ (user_role user = Some mentee → isLoading = false →
     skills = None ∨ skills = Some [] →
     SkillsProgress.SkillsProgress user skills isLoading st
     = SkillsProgress.Panel SkillsProgress.NoSkillsYet
         (SkillsProgress.isAddingSkill st))
  ∧ (∀ l, user_role user = Some mentee → isLoading = false →
     skills = Some l → l ≠ [] →
     ∃ rows,
       SkillsProgress.SkillsProgress user skills isLoading st
       = SkillsProgress.Panel (SkillsProgress.SkillRows rows)
           (SkillsProgress.isAddingSkill st)
       ∧ length rows = length l
       ∧ ∀ i skill, l !! i = Some skill →
           ∃ row, rows !! i = Some row
                  ∧ SkillsProgress.row_name row = Skill.name skill
                  ∧ SkillsProgress.row_color row
                    = SkillsProgress.getColorClass (Skill.progress skill)).
Proof.
  unfold SkillsProgress.SkillsProgress.
  split; [|split; [|split]].
  - intros Hr. rewrite bool_decide_eq_true_2 by exact Hr. reflexivity.
  - intros Hr ->. rewrite bool_decide_eq_false_2 by (intros H; exact (H Hr)).
    reflexivity.
  - intros Hr -> Hs.
    rewrite bool_decide_eq_false_2 by (intros H; exact (H Hr)).
    destruct Hs as [->| ->]; reflexivity.
  - intros l Hr -> -> Hne.
    rewrite bool_decide_eq_false_2 by (intros H; exact (H Hr)).
    destruct l as [|sk l]; [done|].
    exists (SkillsProgress.skillRow <$> (sk :: l)).
    split; [reflexivity|]. split; [apply length_fmap|].
    intros i skill Hi. exists (SkillsProgress.skillRow skill).
    rewrite list_lookup_fmap, Hi. auto.
Qed.

Lemma skillsProgress_view_witness :
  user_role (Some theMentor) ≠ Some mentee
  ∧ SkillsProgress.SkillsProgress (Some theMentor)
      (Some [Skill.mk 1 "Leadership" 40]) true SkillsProgress.initialState
    = SkillsProgress.Nothing.
Proof.
  assert (H : user_role (Some theMentor) ≠ Some mentee)
    by (simpl; discriminate).
  split; [exact H|].
  exact (proj1 (skillsProgress_view (Some theMentor)
                  (Some [Skill.mk 1 "Leadership" 40]) true
                  SkillsProgress.initialState) H).
Defined.

(** ** More on the stats overview *)

(** X18: for a viewer who is not a mentee the mentor directory plays no
    part in the stats overview, neither its data nor its loading flag; once
    the three other collections are not loading, the third card is "Active
    Mentees" and shows the number of upcoming sessions. *)
Theorem stats_mentor_ignores_directory (user : option User.t)
    (upcomingSessions sessions : Query (list Session.t))
    (feedback : Query (list Feedback.t)) (m1 m2 : Query (list User.t)) :
  user_role user ≠ Some mentee →
  StatsOverview.StatsOverview user upcomingSessions sessions feedback m1
  = StatsOverview.StatsOverview user upcomingSessions sessions feedback m2
  ∧ (isLoading upcomingSessions = false → isLoading sessions = false →
     isLoading feedback = false →
     ∃ cards,
       StatsOverview.StatsOverview user upcomingSessions sessions feedback m1
       = StatsOverview.Stats cards
       ∧ StatsOverview.connections cards
         = StatsOverview.ActiveMentees
             (StatsOverview.upcomingSessionsCount (data upcomingSessions))).
Proof.
  intros Hr. unfold StatsOverview.StatsOverview, StatsOverview.loading,
    StatsOverview.activeMentorsCount.
  rewrite !(bool_decide_eq_false_2 _ Hr). simpl. split; [reflexivity|].
  intros -> -> ->. simpl. eexists. split; [reflexivity|]. simpl.
  destruct (StatsOverview.upcomingSessionsCount (data upcomingSessions));
    reflexivity.
Qed.

Lemma stats_mentor_ignores_directory_witness :
  user_role (Some theMentor) ≠ Some mentee
  ∧ StatsOverview.StatsOverview (Some theMentor) (loaded scenarioUpcoming)
      (loaded scenarioSessions) (loaded scenarioFeedback)
      {| data := None; isLoading := true |}
    = StatsOverview.StatsOverview (Some theMentor) (loaded scenarioUpcoming)
        (loaded scenarioSessions) (loaded scenarioFeedback)
        (loaded scenarioMentors).
Proof.
  assert (H : user_role (Some theMentor) ≠ Some mentee)
    by (simpl; discriminate).
  split; [exact H|].
  exact (proj1 (stats_mentor_ignores_directory (Some theMentor)
                  (loaded scenarioUpcoming) (loaded scenarioSessions)
                  (loaded scenarioFeedback)
                  {| data := None; isLoading := true |}
                  (loaded scenarioMentors) H)).
Defined.

(** X19: a collection that is not loading but holds no data, as after a
    failed fetch, counts as empty: no upcoming sessions, 0 hours, "No
    ratings" based on 0 sessions and, for a mentee, 0 active mentors. The
    cards are still rendered. *)
Theorem stats_missing_data_counts_as_empty (user : option User.t)
    (upcomingSessions sessions : Query (list Session.t))
    (feedback : Query (list Feedback.t)) (mentors : Query (list User.t)) :
  isLoading upcomingSessions = false → isLoading sessions = false →
  isLoading feedback = false → isLoading mentors = false →
  ∃ cards,
    StatsOverview.StatsOverview user upcomingSessions sessions feedback mentors
    = StatsOverview.Stats cards
    ∧ (data upcomingSessions = None →
       StatsOverview.upcomingSessionsValue cards = 0%nat)
    ∧ (data sessions = None →
       StatsOverview.totalHoursValue cards = 0%nat
       ∧ StatsOverview.hoursThisMonth cards = 0%nat)
    ∧ (data feedback = None →
       StatsOverview.feedbackScore cards = StatsOverview.NoRatings
       ∧ StatsOverview.basedOnSessions cards = 0%nat)
    ∧ (data mentors = None → user_role user = Some mentee →
       StatsOverview.connections cards = StatsOverview.ActiveMentors 0).
Proof.
  intros H1 H2 H3 H4. unfold StatsOverview.StatsOverview, StatsOverview.loading.
  rewrite H1, H2, H3, H4, andb_false_r. simpl.
  eexists. split; [reflexivity|]. simpl.
  split; [intros ->; reflexivity|].
  split; [intros ->; split; reflexivity|].
  split; [intros ->; split; reflexivity|].
  intros -> Hr. unfold StatsOverview.activeMentorsCount.
  rewrite !(bool_decide_eq_true_2 _ Hr). reflexivity.
Qed.

Lemma stats_missing_data_counts_as_empty_witness :
  isLoading (@noData (list Session.t)) = false
  ∧ ∃ cards,
      StatsOverview.StatsOverview (Some theMentee) noData noData noData noData
      = StatsOverview.Stats cards
      ∧ StatsOverview.feedbackScore cards = StatsOverview.NoRatings.
Proof.
  split; [reflexivity|].
  destruct (stats_missing_data_counts_as_empty (Some theMentee)
              noData noData noData noData eq_refl eq_refl eq_refl eq_refl)
    as (cards & Hc & _ & _ & Hf & _).
  exists cards. split; [exact Hc|]. exact (proj1 (Hf eq_refl)).
Defined.

Lemma Math_round_between (y : Q) (a b : Z) :
  (inject_Z a <= y)%Q → (y <= inject_Z b)%Q →
  (a ≤ StatsOverview.Math_round y ≤ b)%Z.
Proof.
  intros Ha Hb. destruct (Math_round_bounds y) as [Hlo Hhi].
  assert (H1 : (inject_Z a - (1 # 2) < inject_Z (StatsOverview.Math_round y))%Q)
    by lra.
  assert (H2 : (inject_Z (StatsOverview.Math_round y) <= inject_Z b + (1 # 2))%Q)
    by lra.
  revert H1 H2. generalize (StatsOverview.Math_round y) as r. intros r.
  unfold Qlt, Qle, Qminus, Qplus, Qopp, inject_Z. simpl. lia.
Qed.

Lemma ratings_sum_le_5_length (l : list Feedback.t) :
  Forall (λ f, (1 ≤ Feedback.rating f ≤ 5)%Z) l →
  (foldr Z.add 0 (Feedback.rating <$> l) ≤ 5 * Z.of_nat (length l))%Z.
Proof.
  induction 1 as [|f l Hf _ IH]; [simpl; lia|].
  rewrite fmap_cons. cbn [fold_right length]. lia.
Qed.

Lemma ratingsMean_le_5 (l : list Feedback.t) :
  l ≠ [] → Forall (λ f, (1 ≤ Feedback.rating f ≤ 5)%Z) l →
  (ratingsMean l <= 5)%Q.
Proof.
  intros Hne Hall. unfold ratingsMean.
  assert (Hpos : (0 < Z.of_nat (length l))%Z)
    by (destruct l; [done | simpl; lia]).
  apply Qle_shift_div_r.
  - change 0%Q with (inject_Z 0). rewrite <- Zlt_Qlt. exact Hpos.
  - change 5%Q with (inject_Z 5). rewrite <- inject_Z_mult, <- Zle_Qle.
    apply ratings_sum_le_5_length, Hall.
Qed.

(** X20: when every rating lies in 1..5 the average shown for a non-empty
    feedback collection lies between 1 and 5 as well: rounding never takes
    the score out of the scale. *)
Theorem avgRating_within_scale (l : list Feedback.t) :
  l ≠ [] → Forall (λ f, (1 ≤ Feedback.rating f ≤ 5)%Z) l →
  (1 <= StatsOverview.avgRating (Some l))%Q
  ∧ (StatsOverview.avgRating (Some l) <= 5)%Q.
Proof.
  intros Hne Hall. rewrite (avgRating_nonempty l Hne), !Qred_correct.
  pose proof (ratingsMean_ge_1 l Hne Hall) as Hlo.
  pose proof (ratingsMean_le_5 l Hne Hall) as Hhi.
  change (inject_Z 10) with 10%Q.
  destruct (Math_round_between (ratingsMean l * 10) 10 50) as [H1 H2].
  - change (inject_Z 10) with 10%Q. lra.
  - change (inject_Z 50) with 50%Q. lra.
  - rewrite Zle_Qle in H1, H2.
    change (inject_Z 10) with 10%Q in H1. change (inject_Z 50) with 50%Q in H2.
    revert H1 H2.
    generalize (inject_Z (StatsOverview.Math_round (ratingsMean l * 10))).
    intros r H1 H2. change (r / 10)%Q with (r * (1 # 10))%Q. split; lra.
Qed.

Lemma avgRating_within_scale_witness :
  scenarioFeedback ≠ []
  ∧ Forall (λ f, (1 ≤ Feedback.rating f ≤ 5)%Z) scenarioFeedback
  ∧ (1 <= StatsOverview.avgRating (Some scenarioFeedback))%Q
  ∧ (StatsOverview.avgRating (Some scenarioFeedback) <= 5)%Q.
Proof.
  assert (H1 : scenarioFeedback ≠ []) by discriminate.
  assert (H2 : Forall (λ f, (1 ≤ Feedback.rating f ≤ 5)%Z) scenarioFeedback)
    by (repeat constructor; simpl; lia).
  split; [exact H1|]. split; [exact H2|].
  exact (avgRating_within_scale scenarioFeedback H1 H2).
Defined.

Lemma ratings_sum_Permutation (l l' : list Feedback.t) :
  l ≡ₚ l' →
  foldr Z.add 0 (Feedback.rating <$> l) = foldr Z.add 0 (Feedback.rating <$> l').
Proof.
  induction 1 as [|f l l' _ IH|f g l|l1 l2 l3 _ IH1 _ IH2];
    rewrite ?fmap_cons; cbn [fold_right]; [reflexivity|lia|lia|congruence].
Qed.

(** X21: the average does not depend on the order in which the server
    lists the feedback entries. *)
Theorem avgRating_order_independent (l l' : list Feedback.t) :
  l ≡ₚ l' →
  StatsOverview.avgRating (Some l) = StatsOverview.avgRating (Some l').
Proof.
  intros Hp. pose proof (Permutation_length Hp) as Hlen.
  destruct l as [|f l], l' as [|f' l']; try discriminate Hlen;
    [reflexivity|].
  rewrite !avgRating_nonempty by discriminate.
  unfold ratingsMean. rewrite (ratings_sum_Permutation _ _ Hp), Hlen.
  reflexivity.
Qed.

Lemma avgRating_order_independent_witness :
  scenarioFeedback ≡ₚ reverse scenarioFeedback
  ∧ StatsOverview.avgRating (Some scenarioFeedback)
    = StatsOverview.avgRating (Some (reverse scenarioFeedback)).
Proof.
  assert (H : scenarioFeedback ≡ₚ reverse scenarioFeedback)
    by (symmetry; apply reverse_Permutation).
  split; [exact H|].
  exact (avgRating_order_independent _ _ H).
Defined.

(** A whole number of tenths within a twentieth of another one, halves up,
    is that other one. *)
Lemma tenths_unique (j k : Z) :
  (inject_Z j / 10 - (1 # 20) < inject_Z k / 10)%Q →
  (inject_Z k / 10 <= inject_Z j / 10 + (1 # 20))%Q →
  k = j.
Proof.
  intros Hlo Hhi.
  change (inject_Z j / 10)%Q with (inject_Z j * (1 # 10))%Q in *.
  change (inject_Z k / 10)%Q with (inject_Z k * (1 # 10))%Q in *.
  assert (H1 : (inject_Z j - (1 # 2) < inject_Z k)%Q) by lra.
  assert (H2 : (inject_Z k <= inject_Z j + (1 # 2))%Q) by lra.
  revert H1 H2. unfold Qlt, Qle, Qminus, Qplus, Qopp, inject_Z. simpl. lia.
Qed.

Lemma ratings_sum_const (l : list Feedback.t) (r : Z) :
  Forall (λ f, Feedback.rating f = r) l →
  foldr Z.add 0 (Feedback.rating <$> l) = (r * Z.of_nat (length l))%Z.
Proof.
  induction 1 as [|f l Hf _ IH]; [simpl; lia|].
  rewrite fmap_cons. cbn [fold_right length]. lia.
Qed.

Lemma avgRating_on_tenths (l : list Feedback.t) (j : Z) :
  l ≠ [] → (ratingsMean l == inject_Z j / 10)%Q →
  (StatsOverview.avgRating (Some l) == ratingsMean l)%Q.
Proof.
  intros Hne Hj.
  destruct (avgRating_rounded l Hne) as ((k & Hk) & Hlo & Hhi).
  rewrite Hk, Hj in Hlo, Hhi.
  rewrite (tenths_unique j k Hlo Hhi) in Hk. rewrite Hk, Hj. reflexivity.
Qed.

(** X22: rounding to one decimal changes nothing when the mean already is a
    whole number of tenths; in particular, when all entries carry the same
    rating, the average is that rating. *)
Theorem avgRating_exact_on_tenths (l : list Feedback.t) :
  l ≠ [] →
  (∀ j : Z, (ratingsMean l == inject_Z j / 10)%Q →
            (StatsOverview.avgRating (Some l) == ratingsMean l)%Q)
  ∧ (∀ r : Z, Forall (λ f, Feedback.rating f = r) l →
              (StatsOverview.avgRating (Some l) == inject_Z r)%Q).
Proof.
  intros Hne. split.
  - intros j. apply avgRating_on_tenths, Hne.
  - intros r Hall.
    assert (Hmean : (ratingsMean l == inject_Z r)%Q).
    { unfold ratingsMean. rewrite (ratings_sum_const l r Hall), inject_Z_mult.
      apply Qdiv_mult_l. destruct l as [|f l]; [done|].
      unfold Qeq, inject_Z. simpl. lia. }
    rewrite (avgRating_on_tenths l (10 * r) Hne).
    + exact Hmean.
    + rewrite Hmean, inject_Z_mult. change (inject_Z 10) with 10%Q. field.
Qed.

Lemma avgRating_exact_on_tenths_witness :
  [Feedback.mk 7 2 1 4 ""; Feedback.mk 8 2 1 4 ""; Feedback.mk 9 2 1 4 ""] ≠ []
  ∧ Forall (λ f, Feedback.rating f = 4)
      [Feedback.mk 7 2 1 4 ""; Feedback.mk 8 2 1 4 ""; Feedback.mk 9 2 1 4 ""]
  ∧ (StatsOverview.avgRating
       (Some [Feedback.mk 7 2 1 4 ""; Feedback.mk 8 2 1 4 "";
              Feedback.mk 9 2 1 4 ""]) == inject_Z 4)%Q.
Proof.
  assert (H1 : [Feedback.mk 7 2 1 4 ""; Feedback.mk 8 2 1 4 "";
                Feedback.mk 9 2 1 4 ""] ≠ []) by discriminate.
  assert (H2 : Forall (λ f, Feedback.rating f = 4)
                 [Feedback.mk 7 2 1 4 ""; Feedback.mk 8 2 1 4 "";
                  Feedback.mk 9 2 1 4 ""])
    by (repeat constructor).
  split; [exact H1|]. split; [exact H2|].
  exact (proj2 (avgRating_exact_on_tenths _ H1) 4 H2).
Defined.

(** X23: when the "No ratings" text is shown. For loaded collections the
    feedback-score card shows it exactly when the feedback collection is
    empty or the mean of its ratings lies in [-1/20, 1/20), so that it rounds
    to zero; the footer counts the entries all the same. Entries rated 0
    are thus shown as "No ratings". *)
Theorem no_ratings_shown_iff (user : option User.t)
    (upcoming all : list Session.t) (feedback : list Feedback.t)
    (mentors : list User.t) :
  ∃ cards,
    StatsOverview.StatsOverview user (loaded upcoming) (loaded all)
      (loaded feedback) (loaded mentors) = StatsOverview.Stats cards
    ∧ (StatsOverview.feedbackScore cards = StatsOverview.NoRatings
       ↔ feedback = []
         ∨ (- (1 # 20) <= ratingsMean feedback
            ∧ ratingsMean feedback < 1 # 20)%Q)
    ∧ StatsOverview.basedOnSessions cards = length feedback.
Proof.
  eexists. split.
  { unfold StatsOverview.StatsOverview, StatsOverview.loading, loaded.
    cbn [isLoading data orb]. rewrite andb_false_r. reflexivity. }
  cbn [StatsOverview.feedbackScore StatsOverview.basedOnSessions].
  split; [|reflexivity].
  destruct (decide (feedback = [])) as [->|Hne].
  { split; [auto|reflexivity]. }
  destruct (avgRating_rounded feedback Hne) as ((k & Hk) & Hlo & Hhi).
  destruct (Qeq_bool (StatsOverview.avgRating (Some feedback)) 0) eqn:E.
  - apply Qeq_bool_iff in E. split; [|reflexivity].
    intros _. right. rewrite E in Hlo, Hhi. split; lra.
  - split; [discriminate|].
    intros [->|[H1 H2]]; [done|]. exfalso.
    apply Qeq_bool_neq in E. apply E.
    rewrite Hk in Hlo, Hhi. rewrite Hk.
    assert (Hk0 : k = 0%Z).
    { change (inject_Z k / 10)%Q with (inject_Z k * (1 # 10))%Q in Hlo, Hhi.
      assert (Ha : (- (1) < inject_Z k)%Q) by lra.
      assert (Hb : (inject_Z k < 1)%Q) by lra.
      revert Ha Hb. unfold Qlt, Qopp, inject_Z. simpl. lia. }
    rewrite Hk0. reflexivity.
Qed.

(** ** More on the recommended mentors *)

Lemma filter_all {A} (P : A → Prop) `{!∀ x, Decision (P x)} (l : list A) :
  Forall P l → filter P l = l.
Proof.
  induction 1 as [|x l Hx _ IH]; [reflexivity|].
  rewrite filter_cons_True by exact Hx. rewrite IH. reflexivity.
Qed.

(** X24: recommending from an already recommended list changes nothing, and
    once a directory holds four mentors, whatever the server lists after it
    cannot change the recommendation. *)
Theorem recommendedMentors_stable (directory more : list User.t) :
  (∀ recommended,
     RecommendedMentors.recommendedMentors (Some directory) = Some recommended →
     RecommendedMentors.recommendedMentors (Some recommended)
     = Some recommended)
  ∧ ((4 ≤ length (filter (λ u, User.role u = mentor) directory))%nat →
     RecommendedMentors.recommendedMentors (Some (directory ++ more))
     = RecommendedMentors.recommendedMentors (Some directory)).
Proof.
  unfold RecommendedMentors.recommendedMentors. simpl. split.
  - intros recommended [= <-]. f_equal.
    rewrite filter_all.
    + apply take_idemp.
    + apply Forall_take, Forall_forall. intros u Hu.
      apply list_elem_of_filter in Hu as [Hu _]. exact Hu.
  - intros Hlen. f_equal. rewrite filter_app. apply take_app_le, Hlen.
Qed.

Lemma recommendedMentors_stable_witness :
  (4 ≤ length (filter (λ u, User.role u = mentor) sampleDirectory))%nat
  ∧ RecommendedMentors.recommendedMentors
      (Some (sampleDirectory ++ [theMentor; outsider]))
    = RecommendedMentors.recommendedMentors (Some sampleDirectory).
Proof.
  assert (H : (4 ≤ length (filter (λ u, User.role u = mentor)
                             sampleDirectory))%nat)
    by (vm_compute; lia).
  split; [exact H|].
  exact (proj2 (recommendedMentors_stable sampleDirectory
                  [theMentor; outsider]) H).
Defined.

(** X25: the recommended-mentors card shows skeletons while the directory
    is loading, whoever the viewer is; once it is not loading it renders
    nothing for a viewer who is not a mentee and, for a mentee, a panel that
    announces the size of the whole directory, non-mentors included, and
    lists at most four of its entries; a directory without data gives a
    panel of 0 experts and an empty list. *)
Theorem recommendedMentors_view (user : option User.t)
    (mentors : Query (list User.t)) :
  (isLoading mentors = true →
   RecommendedMentors.RecommendedMentors user mentors
   = RecommendedMentors.Skeletons)
  ∧ (isLoading mentors = false → user_role user ≠ Some mentee →
     RecommendedMentors.RecommendedMentors user mentors
     = RecommendedMentors.Nothing)
  ∧ (isLoading mentors = false → user_role user = Some mentee →
     ∃ recommended,
       RecommendedMentors.RecommendedMentors user mentors
       = RecommendedMentors.Panel
           (match data mentors with Some l => length l | None => 0%nat end)
           recommended
       ∧ (length recommended ≤ 4)%nat
       ∧ (length recommended
          ≤ match data mentors with Some l => length l | None => 0%nat end)%nat
       ∧ (data mentors = None → recommended = [])).
Proof.
  unfold RecommendedMentors.RecommendedMentors.
  split; [|split].
  - intros ->. reflexivity.
  - intros -> Hr. rewrite bool_decide_eq_true_2 by exact Hr. reflexivity.
  - intros -> Hr. rewrite bool_decide_eq_false_2 by (intros H; exact (H Hr)).
    eexists. split; [reflexivity|].
    destruct (data mentors) as [l|]; simpl.
    + rewrite length_take. split; [lia|]. split; [|discriminate].
      pose proof (sublist_length _ _
                    (sublist_filter (λ u, User.role u = mentor) l)).
      lia.
    + split; [lia|]. split; [lia|]. reflexivity.
Qed.

Lemma recommendedMentors_view_witness :
  isLoading {| data := Some sampleDirectory; isLoading := true |} = true
  ∧ RecommendedMentors.RecommendedMentors (Some theMentor)
      {| data := Some sampleDirectory; isLoading := true |}
    = RecommendedMentors.Skeletons.
Proof.
  split; [reflexivity|].
  exact (proj1 (recommendedMentors_view (Some theMentor)
                  {| data := Some sampleDirectory; isLoading := true |})
               eq_refl).
Defined.

Lemma click_keeps_mentor (user : option User.t) (mentors : Query (list User.t))
    (selected selected' : option User.t) (c : RecommendedMentors.Click) :
  RecommendedMentors.click user mentors selected c = Some selected' →
  user_role user = Some mentee
  ∧ ∀ m, selected' = Some m → User.role m = mentor.
Proof.
  unfold RecommendedMentors.click, RecommendedMentors.RecommendedMentors.
  destruct (isLoading mentors); [discriminate|].
  case_bool_decide as Hmentee; [discriminate|].
  destruct c as [chosen|].
  - case_bool_decide as Hin; [|discriminate].
    intros [= <-]. split; [exact Hmentee|].
    intros m [= <-]. unfold RecommendedMentors.handleConnectClick.
    destruct (data mentors) as [l|]; simpl in Hin.
    + apply elem_of_take in Hin as (i & Hi & _).
      apply list_elem_of_lookup_2 in Hi.
      apply list_elem_of_filter in Hi as [Hi _]. exact Hi.
    + apply elem_of_nil in Hin. done.
  - destruct selected; [|discriminate].
    intros [= <-]. split; [exact Hmentee|]. discriminate.
Qed.

(** X26: the booking dialog is only ever opened for a mentor. Starting with
    no mentor selected, after any sequence of clicks on the card, however
    the directory changes between them, the selected user, if there is one,
    has the mentor role; and a viewer who is not a mentee cannot click
    anything at all. *)
Theorem booking_only_for_mentors (user : option User.t)
    (steps : list (Query (list User.t) * RecommendedMentors.Click))
    (selected : option User.t) :
  RecommendedMentors.clicks user None steps = Some selected →
  (∀ m, selected = Some m → User.role m = mentor)
  ∧ (user_role user ≠ Some mentee → steps = [] ∧ selected = None).
Proof.
  assert (Hgen : ∀ start,
    (∀ m, start = Some m → User.role m = mentor) →
    RecommendedMentors.clicks user start steps = Some selected →
    (∀ m, selected = Some m → User.role m = mentor)
    ∧ (user_role user ≠ Some mentee → steps = [] ∧ selected = start)).
  { induction steps as [|[mentors c] rest IH]; intros start Hstart; simpl.
    - intros [= <-]. auto.
    - destruct (RecommendedMentors.click user mentors start c)
        as [next|] eqn:E; [|discriminate].
      destruct (click_keeps_mentor _ _ _ _ _ E) as [Hmentee Hnext].
      intros Hrun. destruct (IH next Hnext Hrun) as [Hsel _].
      split; [exact Hsel|]. intros Hn. exfalso. exact (Hn Hmentee). }
  intros Hrun. apply (Hgen None); [discriminate|exact Hrun].
Qed.

Lemma booking_only_for_mentors_witness :
  RecommendedMentors.clicks (Some theMentee) None
    [ (loaded sampleDirectory, RecommendedMentors.ClickConnect theMentor);
      (loaded [], RecommendedMentors.CloseBooking);
      (loaded sampleDirectory, RecommendedMentors.ClickConnect theMentor) ]
  = Some (Some theMentor)
  ∧ User.role theMentor = mentor.
Proof.
  assert (H : RecommendedMentors.clicks (Some theMentee) None
    [ (loaded sampleDirectory, RecommendedMentors.ClickConnect theMentor);
      (loaded [], RecommendedMentors.CloseBooking);
      (loaded sampleDirectory, RecommendedMentors.ClickConnect theMentor) ]
    = Some (Some theMentor)) by (vm_compute; reflexivity).
  split; [exact H|].
  exact (proj1 (booking_only_for_mentors _ _ _ H) theMentor eq_refl).
Defined.

(** ** The card's cells *)

(** X27: the card's handlers never write the rating or the comment cell.
    After any sequence of calls of the handlers on a fresh card the rating
    is still 5 and the comment still empty, and every feedback payload sent
    along the way carries the empty comment. *)
Theorem card_cells_never_written (user : option User.t)
    (steps : list (Session.t * SessionCard.Call))
    (cache0 : gmap QueryKey QueryState) (w : World SessionCard.State) :
  SessionCard.calls user steps (mkWorld SessionCard.initialState cache0 [])
  = Some w →
  SessionCard.rating (ui w) = 5
  ∧ SessionCard.comment (ui w) = ""
  ∧ ∀ r fd, r ∈ requests (trace w) → body r = FeedbackBody fd →
            Feedback.comment fd = "".
Proof.
  intros Hrun.
  destruct (calls_keep_cells _ _ _ _ Hrun) as (Hr & Hc & new & Hq & Hn).
  split; [exact Hr|]. split; [exact Hc|].
  intros r fd Hin Hb. simpl in Hq. rewrite Hq in Hin.
  exact (proj2 (Hn r fd Hin Hb)).
Qed.

Lemma card_cells_never_written_witness :
  ∃ w,
    SessionCard.calls (Some theMentee)
      [ (session7 approved, SessionCard.CallJoinSession);
        (session7 approved, SessionCard.CallCancel (Rejected "offline"));
        (session7 completed, SessionCard.CallLeaveFeedback);
        (session7 completed, SessionCard.CallSubmitFeedback Resolved) ]
      freshCard = Some w
    ∧ SessionCard.rating (ui w) = 5
    ∧ SessionCard.comment (ui w) = "".
Proof.
  eexists. split; [reflexivity|].
  destruct (card_cells_never_written (Some theMentee)
              [ (session7 approved, SessionCard.CallJoinSession);
                (session7 approved, SessionCard.CallCancel (Rejected "offline"));
                (session7 completed, SessionCard.CallLeaveFeedback);
                (session7 completed, SessionCard.CallSubmitFeedback Resolved) ]
              ∅ _ eq_refl) as (Hr & Hc & _).
  split; [exact Hr|exact Hc].
Defined.
